(** * DeFiAnalysis: the two extract/load pipelines

    A shallow embedding of
    - [extract_load/fetch_market_data.py]  (module [Market])
    - [extract_load/fetch_onchain_data.py] (module [OnChain])
    together with the properties of their retry loop, transformer,
    block extractor and CSV writers.

    Effects are modelled by an exception monad over an append-only
    trace of observable events (log records, HTTP requests, sleeps,
    RPC calls); the file system is a finite map from paths to tables,
    with the paths a failed write has left in a state that is not
    known. *)

From Stdlib Require Import ZArith QArith List Lia Ascii String Sorted.
From stdpp Require Import base option list gmap strings.

Local Open Scope string_scope.
Local Open Scope list_scope.
Local Open Scope Z_scope.

(** ** Python values shared by both scripts *)

(** [float] is IEEE binary64 in Python; the model keeps the type and its
    conversions abstract.  [float_of_Q q] is [float(x)] for a number [x]
    whose exact value is [q]; [fzero] is the literal [0.0]. *)
Class PyFloat := {
  pyfloat : Type;
  float_of_Q : Q -> pyfloat;
  fzero : pyfloat
}.

(** Numbers as Python has them at run time: [int], [float], and the
    [decimal.Decimal] that [from_wei] returns. *)
Inductive num `{PyFloat} :=
| NInt (z : Z)
| NFloat (f : pyfloat)
| NDecimal (q : Q).

(** [float(x)] *)
Definition float `{PyFloat} (x : num) : pyfloat :=
  match x with
  | NInt z => float_of_Q (inject_Z z)
  | NFloat f => f
  | NDecimal q => float_of_Q q
  end.

(** Exceptions the two scripts raise, catch or let through.
    [HTTPError] is a subclass of [RequestException] in [requests];
    [RequestException] below stands for every other member of that
    family (connection errors, timeouts, and the [JSONDecodeError] of a
    body that is not JSON).  [DateRangeError] is what
    [datetime.fromtimestamp] raises for an instant it cannot hold (a
    [ValueError] or an [OverflowError], by how far off it is);
    [OutOfBoundsDatetime] is what pandas raises for a timestamp its
    date conversion cannot hold. *)
Inductive exn :=
| HTTPError (status_code : Z)
| RequestException
| ValueError (msg : string)
| DateRangeError
| OSError
| RPCError
| AttributeError (msg : string)
| ConnectionError (msg : string)
| OutOfBoundsDatetime.

(** ** Logging

    An f-string is kept as its fragments, so that no number or
    exception formatting has to be invented. *)
Inductive level := INFO | WARNING | ERROR.

Inductive frag :=
| Txt (s : string)
| FInt (z : Z)
| FStr (s : string)
| FNat (n : nat)
| FExn (e : exn).

(** ** Civil calendar

    What [datetime] and [pandas] do to an epoch offset: proleptic
    Gregorian date of a day count relative to 1970-01-01. *)
Record date := mkDate { year : Z; month : Z; day : Z }.

Definition civil_from_days (z : Z) : date :=
  let z := z + 719468 in
  let era := z / 146097 in
  let doe := z - era * 146097 in
  let yoe := (doe - doe / 1460 + doe / 36524 - doe / 146096) / 365 in
  let y := yoe + era * 400 in
  let doy := doe - (365 * yoe + yoe / 4 - yoe / 100) in
  let mp := (5 * doy + 2) / 153 in
  let d := doy - (153 * mp + 2) / 5 + 1 in
  let m := if mp <? 10 then mp + 3 else mp - 9 in
  mkDate (if m <=? 2 then y + 1 else y) m d.

Definition days_from_civil (c : date) : Z :=
  let y := if month c <=? 2 then year c - 1 else year c in
  let era := y / 400 in
  let yoe := y - era * 400 in
  let mp := if month c <=? 2 then month c + 9 else month c - 3 in
  let doy := (153 * mp + 2) / 5 + day c - 1 in
  let doe := yoe * 365 + yoe / 4 - yoe / 100 + doy in
  era * 146097 + doe - 719468.

#[global] Instance date_eq_dec : EqDecision date.
Proof. solve_decision. Defined.

(** The Gregorian calendar on its own terms: leap years, the length of
    each month, and the triples that name a day. *)
Definition is_leap (y : Z) : bool :=
  ((y mod 4 =? 0) && negb (y mod 100 =? 0)) || (y mod 400 =? 0).

Definition days_in_month (y m : Z) : Z :=
  if m =? 2 then (if is_leap y then 29 else 28)
  else if (m =? 4) || (m =? 6) || (m =? 9) || (m =? 11) then 30
  else 31.

Definition valid_date (d : date) : Prop :=
  1 <= month d <= 12 /\ 1 <= day d <= days_in_month (year d) (month d).

(** ** pandas timestamps

    [pd.to_datetime(column, unit="ms").dt.date] turns epoch
    milliseconds into [datetime.date] values, and raises for a value
    it cannot hold.  Which values it holds depends on the resolution
    pandas stores them in (nanoseconds reach from 1677 to 2262), so the
    test is a parameter; in every case a value that is held is a date
    of the years 1 to 9999, which is all a [datetime.date] can be. *)
Class Pandas := {
  datetime64_holds : Z -> bool;
  datetime64_is_date :
    forall ts, datetime64_holds ts = true -> -62135596800000 <= ts <= 253402300799999
}.

(** ** The effect monad

    A computation transforms the world (trace and file system) and
    either returns a value or raises. *)
Section Monad.
Context {W : Type}.

Inductive outcome (A : Type) :=
| Ret (a : A)
| Exc (e : exn).
#[global] Arguments Ret {A} a.
#[global] Arguments Exc {A} e.

Definition M (A : Type) : Type := W -> outcome A * W.

Definition ret {A} (a : A) : M A := fun t => (Ret a, t).

Definition bind {A B} (m : M A) (k : A -> M B) : M B :=
  fun t => match m t with
           | (Ret a, t') => k a t'
           | (Exc e, t') => (Exc e, t')
           end.

Definition raise {A} (e : exn) : M A := fun t => (Exc e, t).

(** [try: m except e: h e] *)
Definition try_except {A} (m : M A) (h : exn -> M A) : M A :=
  fun t => match m t with
           | (Ret a, t') => (Ret a, t')
           | (Exc e, t') => h e t'
           end.
End Monad.

#[global] Instance M_ret {W} : MRet (@M W) := @ret W.
#[global] Instance M_bind {W} : MBind (@M W) := fun A B k m => bind m k.

(** [not xs] for a Python list *)
Definition is_empty {A} (xs : list A) : bool :=
  match xs with [] => true | _ => false end.

(** ** Paths and the file system *)

Definition starts_with_sep (s : string) : bool :=
  match s with
  | String "/"%char _ => true
  | _ => false
  end.

Fixpoint ends_with_sep (s : string) : bool :=
  match s with
  | EmptyString => false
  | String c EmptyString => if Ascii.eqb c "/"%char then true else false
  | String _ r => ends_with_sep r
  end.

(** [os.path.join a b] on a POSIX system *)
Definition path_join (a b : string) : string :=
  if starts_with_sep b then b
  else if (String.length a =? 0)%nat || ends_with_sep a then String.append a b
  else String.append a (String.append "/" b).

(** One cell of a written table. *)
Inductive cell `{PyFloat} :=
| CDate (d : date)
| CFloat (f : pyfloat)
| CInt (z : Z)
| CStr (s : string).

(** What [DataFrame.to_csv(path, index=False)] leaves in a file: the
    header line and the data lines, still as cells. *)
Record csv `{PyFloat} := mkCsv { header : list string; lines : list (list cell) }.

(** The directories that exist, the files whose content is known, and
    the paths whose content is not: a write that fails may have failed
    before the file was opened (it is as it was), on opening it (mode
    [w] has emptied it) or part-way (it holds a piece of the new
    text), and nothing tells these apart afterwards. *)
Record filesystem `{PyFloat} := mkFs {
  dirs : gset string;
  files : gmap string csv;
  torn : gset string
}.

(** Whether the operating system lets a directory be created or a file
    be written; a refusal surfaces as [OSError]. *)
Record disk := mkDisk {
  can_mkdir : string -> bool;
  can_write : string -> bool
}.

(** * The market pipeline: [fetch_market_data.py] *)
Module Market.

(** [(epoch-millisecond, value)] pairs *)
Definition series `{PyFloat} : Type := list (Z * num).

Inductive arg := AStr (s : string) | AInt (z : Z).

Record request := mkRequest {
  url : string;
  params : list (string * arg);
  timeout : Z
}.

(** The Python types of the JSON values that are neither an object nor
    [null]. *)
Inductive pytype := TList | TStr | TInt | TFloat | TBool.

Definition type_name (t : pytype) : string :=
  match t with
  | TList => "list"
  | TStr => "str"
  | TInt => "int"
  | TFloat => "float"
  | TBool => "bool"
  end.

(** What comes back from [requests.get]: no response at all, or a
    response with a status code and a body.  Bodies are told apart by
    what [response.json()] makes of them: a JSON object (kept as the
    dict it decodes to), the value [null], a JSON value of another
    type, or text that is not JSON. *)
Inductive reply `{PyFloat} :=
| Response (status_code : Z) (body : gmap string series)
| NoResponse
| Null (status_code : Z)
| Other (status_code : Z) (t : pytype)
| Garbled (status_code : Z).

(** What [fetch_market_data] can return.  The function is annotated
    [-> dict], but it returns whatever [response.json()] gives, and a
    Python function that runs off its end returns [None]. *)
Inductive pyobj `{PyFloat} :=
| PyNone
| PyDict (d : gmap string series)
| PyOther (t : pytype).

(** A [requests.Response] as the loop uses it: its status code and the
    value its body decodes to, if it is JSON. *)
Definition response `{PyFloat} : Type := Z * option pyobj.

Inductive event :=
| Log (lvl : level) (msg : list frag)
| HttpGet (r : request)
| Sleep (secs : Z).

Record world `{PyFloat} := mkWorld {
  trace : list event;
  fs : filesystem
}.

Definition is_get (e : event) : bool :=
  match e with HttpGet _ => true | _ => false end.

Definition is_sleep (e : event) : bool :=
  match e with Sleep _ => true | _ => false end.

Definition gets (t : list event) : list event := List.filter is_get t.
Definition sleeps (t : list event) : list event := List.filter is_sleep t.

(** ** Vocabulary of the properties

    Projections of a trace and descriptions of replies and inputs that
    the statements below are phrased in; the pipeline itself follows in
    the section after. *)

(** The network-visible part of a trace: requests and waits. *)
Definition net (t : list event) : list event :=
  List.filter (fun e => is_get e || is_sleep e) t.

(** [k] failed attempts, each followed by the fixed five-second wait. *)
Definition retry_pattern (r : request) (k : nat) : list event :=
  flat_map (fun _ => [HttpGet r; Sleep 5]) (seq 0 k).


(** Events of which every request is [q]. *)
Definition asks_only (q : request) (evs : list event) : Prop :=
  forall r, In (HttpGet r) evs -> r = q.

(** Status codes for which [raise_for_status] raises. *)
Definition is_error_status (st : Z) : bool := (400 <=? st) && (st <? 600).

(** The replies after which the loop tries again: a rate-limit answer,
    no answer at all, or an answer without an error status whose body
    is not JSON. *)
Definition retryable `{PyFloat} (r : reply) : bool :=
  match r with
  | Response st _ => st =? 429
  | NoResponse => true
  | Null st => st =? 429
  | Other st _ => st =? 429
  | Garbled st => (st =? 429) || negb (is_error_status st)
  end.

(** The exception an attempt ends in, if any. *)
Definition failure_of `{PyFloat} (r : reply) : option exn :=
  match r with
  | Response st _ => if is_error_status st then Some (HTTPError st) else None
  | NoResponse => Some RequestException
  | Null st => if is_error_status st then Some (HTTPError st) else None
  | Other st _ => if is_error_status st then Some (HTTPError st) else None
  | Garbled st => if is_error_status st then Some (HTTPError st) else Some RequestException
  end.

(** How the call ends when this reply is the one that decides it. *)
Definition outcome_of `{PyFloat} (r : reply) : outcome pyobj :=
  match r with
  | Response st body => if is_error_status st then Exc (HTTPError st) else Ret (PyDict body)
  | NoResponse => Exc RequestException
  | Null st => if is_error_status st then Exc (HTTPError st) else Ret PyNone
  | Other st t => if is_error_status st then Exc (HTTPError st) else Ret (PyOther t)
  | Garbled st => if is_error_status st then Exc (HTTPError st) else Exc RequestException
  end.

(** The lines one turn of the loop logs for the reply it got, in
    attempt [a] of [mr]. *)
Definition turn_lines `{PyFloat} (r : reply) (a mr : Z) : list event :=
  match failure_of r with
  | None => []
  | Some (HTTPError st) =>
    if st =? 429 then
      Log WARNING [Txt "Rate limit hit (HTTP 429). Attempt "; FInt a;
                   Txt "/"; FInt mr; Txt ". Retrying in 5 seconds..."]
      :: (if a <? mr then [] else [Log ERROR [Txt "Max retries reached. Failing."]])
    else [Log ERROR [Txt "HTTP Error: "; FExn (HTTPError st)]]
  | Some e => [Log ERROR [Txt "Request Error fetching data: "; FExn e]]
  end.

(** The two lines a run of [main] can end with. *)
Definition success_line : event := Log INFO [Txt "Pipeline executed successfully."].
Definition failure_line (e : exn) : event :=
  Log ERROR [Txt "Pipeline execution failed: "; FExn e].

(** The lines the market [main] logs first and before saving. *)
Definition market_start_line : event :=
  Log INFO [Txt "Starting market data extraction pipeline..."].
Definition generated_line (n : nat) : event :=
  Log INFO [Txt "Generated DataFrame with "; FNat n; Txt " records for ";
            FStr "ethereum"; Txt "."].

(** The request [fetch_market_data] sends: its URL is a constant. *)
Definition chart_request (currency : string) (days : Z) : request :=
  mkRequest "https://api.coingecko.com/api/v3/coins/CG-2GwBoDyKGFHywJ2gaSdtrNd7/market_chart"
    [("vs_currency", AStr currency); ("days", AInt days); ("interval", AStr "daily")] 10.

(** The line [fetch_market_data] logs before its first attempt. *)
Definition fetch_banner (coin_id currency : string) (days : Z) : event :=
  Log INFO [Txt "Fetching "; FInt days; Txt " days of market data for "; FStr coin_id;
            Txt " in "; FStr currency; Txt "..."].


(** The key of a joined row. *)
Definition row_key `{PyFloat} (r : Z * num * num) : Z := fst (fst r).



(** The line [process_market_data] logs on entry. *)
Definition process_banner : event :=
  Log INFO [Txt "Processing raw JSON data into DataFrame..."].

(** The world after more events have been observed. *)
Definition after `{PyFloat} (w : world) (evs : list event) : world :=
  {| trace := trace w ++ evs; fs := fs w |}.

Section Pipeline.
Context `{PyFloat} `{Pandas}.

(** The remote API: its answer to a request, given how many requests
    this run has already sent. *)
Variable server : request -> nat -> reply.
Variable hw : disk.
(** Directory above [extract_load/], computed from [__file__]. *)
Variable project_root : string.

Definition emit (e : event) : M (W := world) unit :=
  fun w => (Ret tt, {| trace := trace w ++ [e]; fs := fs w |}).

Definition logger (lvl : level) (msg : list frag) : M unit := emit (Log lvl msg).

Definition time_sleep (secs : Z) : M unit := emit (Sleep secs).

(** [requests.get(url, params=params, timeout=t)] *)
Definition requests_get (u : string) (p : list (string * arg)) (t : Z)
  : M (W := world) response :=
  fun w =>
    let r := mkRequest u p t in
    let w' := {| trace := trace w ++ [HttpGet r]; fs := fs w |} in
    match server r (length (gets (trace w))) with
    | Response st body => (Ret (st, Some (PyDict body)), w')
    | NoResponse => (Exc RequestException, w')
    | Null st => (Ret (st, Some PyNone), w')
    | Other st t => (Ret (st, Some (PyOther t)), w')
    | Garbled st => (Ret (st, None), w')
    end.

(** [response.raise_for_status()] *)
Definition raise_for_status (resp : response) : M (W := world) unit :=
  if is_error_status (fst resp) then raise (HTTPError (fst resp))
  else ret tt.

(** [response.json()]: the decoded body, or the [JSONDecodeError] of
    [requests], which is a [RequestException]. *)
Definition response_json (resp : response) : M (W := world) pyobj :=
  match snd resp with
  | Some v => ret v
  | None => raise RequestException
  end.

(** The body of the [for attempt in range(1, max_retries + 1)] loop;
    [remaining] counts the iterations the range still holds. *)
Fixpoint attempts (u : string) (p : list (string * arg)) (max_retries : Z)
    (remaining : nat) (attempt : Z) : M (W := world) pyobj :=
  match remaining with
  | O => ret PyNone
  | S remaining' =>
    try_except
      (response ← requests_get u p 10;
       raise_for_status response;;
       response_json response)
      (fun e =>
         match e with
         | HTTPError status_code =>
           if status_code =? 429 then
             logger WARNING [Txt "Rate limit hit (HTTP 429). Attempt "; FInt attempt;
                             Txt "/"; FInt max_retries; Txt ". Retrying in 5 seconds..."];;
             if attempt <? max_retries then
               time_sleep 5;;
               attempts u p max_retries remaining' (attempt + 1)
             else
               logger ERROR [Txt "Max retries reached. Failing."];;
               raise e
           else
             logger ERROR [Txt "HTTP Error: "; FExn e];;
             raise e
         | RequestException =>
           logger ERROR [Txt "Request Error fetching data: "; FExn e];;
           if attempt <? max_retries then
             time_sleep 5;;
             attempts u p max_retries remaining' (attempt + 1)
           else
             raise e
         | _ => raise e
         end)
  end.

Definition fetch_market_data (coin_id currency : string) (days max_retries : Z)
  : M (W := world) pyobj :=
  let url := "https://api.coingecko.com/api/v3/coins/CG-2GwBoDyKGFHywJ2gaSdtrNd7/market_chart" in
  let params := [("vs_currency", AStr currency); ("days", AInt days);
                 ("interval", AStr "daily")] in
  logger INFO [Txt "Fetching "; FInt days; Txt " days of market data for "; FStr coin_id;
               Txt " in "; FStr currency; Txt "..."];;
  attempts url params max_retries (Z.to_nat max_retries) 1.

(** *** Transformer *)

(** A row of the merged frame: [timestamp], [price], [volume]. *)
Definition merged_row : Type := Z * num * num.

(** [pd.merge(left, right, on="timestamp")]: inner join on the key,
    keeping the order of the left rows; a left row that meets several
    right rows yields one row per match, in the order of the right
    frame. *)
Definition merge (left right : series) : list merged_row :=
  flat_map
    (fun p => List.map (fun v => (fst p, snd p, snd v))
                (List.filter (fun v => fst v =? fst p) right))
    left.

(** The UTC calendar date of an epoch offset in milliseconds. *)
Definition date_of_ms (ts : Z) : date := civil_from_days (ts / 86400000).

Record MarketDataPoint := mkPoint {
  mdp_date : date;
  price : pyfloat;
  volume : pyfloat
}.

(** Columns [date], [price], [volume] with both value columns cast by
    [astype(float)]. *)
Definition to_point (r : merged_row) : MarketDataPoint :=
  let '(ts, p, v) := r in mkPoint (date_of_ms ts) (float p) (float v).

Definition same_date (a b : MarketDataPoint) : bool :=
  bool_decide (mdp_date a = mdp_date b).

(** [df.drop_duplicates(subset=["date"], keep="last")]: a row stays
    when no later row carries its date. *)
Fixpoint drop_duplicates_last (df : list MarketDataPoint) : list MarketDataPoint :=
  match df with
  | [] => []
  | r :: rest =>
    if existsb (same_date r) rest then drop_duplicates_last rest
    else r :: drop_duplicates_last rest
  end.

(** [raw_data.get(key, [])] *)
Definition get_series (raw_data : gmap string series) (key : string) : series :=
  default [] (raw_data !! key).

(** Lines 68 to 75: the [date] column from
    [pd.to_datetime(df["timestamp"], unit="ms").dt.date], which raises
    when the column holds a timestamp pandas cannot hold, then the
    selection of [date], [price], [volume] and the two casts. *)
Definition with_dates (df : list merged_row) : M (W := world) (list MarketDataPoint) :=
  if forallb datetime64_holds (List.map row_key df) then ret (List.map to_point df)
  else raise OutOfBoundsDatetime.

Definition process_market_data (raw_data : gmap string series)
  : M (W := world) (list MarketDataPoint) :=
  logger INFO [Txt "Processing raw JSON data into DataFrame..."];;
  try_except
    (let prices := get_series raw_data "prices" in
     let volumes := get_series raw_data "total_volumes" in
     if is_empty prices || is_empty volumes then
       raise (ValueError "API response is missing 'prices' or 'total_volumes' data.")
     else
       let df := merge prices volumes in
       df ← with_dates df;
       let df := drop_duplicates_last df in
       ret df)
    (fun e =>
       logger ERROR [Txt "Error processing market data: "; FExn e];;
       raise e).

(** *** Writer *)

(** [os.makedirs(path, exist_ok=True)] *)
Definition makedirs (path : string) : M (W := world) unit :=
  fun w =>
    if can_mkdir hw path then
      (Ret tt, {| trace := trace w;
                  fs := {| dirs := {[path]} ∪ dirs (fs w); files := files (fs w);
                           torn := torn (fs w) |} |})
    else (Exc OSError, w).

Definition point_cells (r : MarketDataPoint) : list cell :=
  [CDate (mdp_date r); CFloat (price r); CFloat (volume r)].

(** [df.to_csv(path, index=False)]: the file is opened in mode [w] and
    the table written to it.  When the write is refused the content of
    the file is not known any more. *)
Definition to_csv (df : list MarketDataPoint) (path : string) : M (W := world) unit :=
  fun w =>
    if can_write hw path then
      let table := {| header := ["date"; "price"; "volume"];
                      lines := List.map point_cells df |} in
      (Ret tt, {| trace := trace w;
                  fs := {| dirs := dirs (fs w);
                           files := <[path := table]> (files (fs w));
                           torn := torn (fs w) ∖ {[path]} |} |})
    else
      (Exc OSError, {| trace := trace w;
                       fs := {| dirs := dirs (fs w);
                                files := delete path (files (fs w));
                                torn := {[path]} ∪ torn (fs w) |} |}).

Definition save_to_csv (df : list MarketDataPoint) (filename : string)
  : M (W := world) unit :=
  let output_dir := path_join project_root "temp_data" in
  makedirs output_dir;;
  let output_path := path_join output_dir filename in
  logger INFO [Txt "Saving data to "; FStr output_path; Txt "..."];;
  try_except
    (to_csv df output_path;;
     logger INFO [Txt "Data saved successfully."])
    (fun e =>
       logger ERROR [Txt "Error saving to CSV: "; FExn e];;
       raise e).

(** *** Orchestrator *)

(** [process_market_data(raw_data)] for whatever [fetch_market_data]
    returned: only a dict has a [get], and the [AttributeError] of
    anything else is raised inside the function's [try]. *)
Definition process_fetched (raw_data : pyobj) : M (W := world) (list MarketDataPoint) :=
  match raw_data with
  | PyDict d => process_market_data d
  | PyNone =>
    logger INFO [Txt "Processing raw JSON data into DataFrame..."];;
    try_except
      (raise (AttributeError "'NoneType' object has no attribute 'get'"))
      (fun e =>
         logger ERROR [Txt "Error processing market data: "; FExn e];;
         raise e)
  | PyOther t =>
    logger INFO [Txt "Processing raw JSON data into DataFrame..."];;
    try_except
      (raise (AttributeError (String.append "'" (String.append (type_name t)
                                "' object has no attribute 'get'"))))
      (fun e =>
         logger ERROR [Txt "Error processing market data: "; FExn e];;
         raise e)
  end.

Definition main : M (W := world) unit :=
  try_except
    (logger INFO [Txt "Starting market data extraction pipeline..."];;
     let coin_id := "ethereum" in
     let currency := "usd" in
     raw_data ← fetch_market_data coin_id currency 7 3;
     df ← process_fetched raw_data;
     logger INFO [Txt "Generated DataFrame with "; FNat (length df);
                  Txt " records for "; FStr coin_id; Txt "."];;
     save_to_csv df (String.append coin_id "_market_data.csv");;
     logger INFO [Txt "Pipeline executed successfully."])
    (fun e => logger ERROR [Txt "Pipeline execution failed: "; FExn e]).

End Pipeline.



End Market.

(** * The on-chain pipeline: [fetch_onchain_data.py] *)
Module OnChain.

(** The fields of an RPC block that the extractor reads.  With
    [full_transactions=False] the transaction list holds hashes only. *)
Record Block := mkBlock {
  number : Z;
  timestamp : Z;
  transactions : list string;
  baseFeePerGas : option Z
}.

(** Offsets that fall in the years 1 to 9999, which is all a
    [datetime] can hold. *)
Definition in_datetime_range (ts : Z) : bool :=
  (-62135596800 <=? ts) && (ts <=? 253402300799).

(** A block as an Ethereum-compatible chain can hold it: a timestamp
    that is a date of the common era and a base fee that is an unsigned
    256-bit amount. *)
Definition valid_block (b : Block) : bool :=
  in_datetime_range (timestamp b)
  && match baseFeePerGas b with
     | Some fee => (0 <=? fee) && (fee <? 2 ^ 256)
     | None => true
     end.

(** A connected [Web3] session: the chain head it reports and its
    answer to [eth.get_block]; [None] stands for a call that raises.
    A node answers a request for block [n] with the block numbered
    [n], and the blocks it delivers are valid. *)
Record Web3 := mkWeb3 {
  block_number : Z;
  get_block : Z -> option Block;
  get_block_number : forall n b, get_block n = Some b -> number b = n;
  get_block_valid : forall n b, get_block n = Some b -> valid_block b = true
}.

(** Whether the call for block [n] returns a block. *)
Definition delivered (w3 : Web3) (n : Z) : bool :=
  match get_block w3 n with Some _ => true | None => false end.

Inductive event :=
| Log (lvl : level) (msg : list frag)
| GetBlock (block_num : Z) (full_transactions : bool).

Record world `{PyFloat} := mkWorld {
  trace : list event;
  fs : filesystem
}.

Definition requested (e : event) : option Z :=
  match e with GetBlock n _ => Some n | _ => None end.

(** Block numbers asked of the node, in the order they were asked. *)
Definition attempted (t : list event) : list Z := omap requested t.

(** A [datetime]: calendar date and wall-clock time of day. *)
Record datetime := mkDatetime {
  dt_date : date;
  hour : Z;
  minute : Z;
  second : Z
}.

Definition digit (d : Z) : ascii := ascii_of_nat (48 + Z.to_nat d).

Definition dec2 (n : Z) : string :=
  String (digit (n / 10 mod 10)) (String (digit (n mod 10)) EmptyString).

Definition dec4 (n : Z) : string := String.append (dec2 (n / 100)) (dec2 (n mod 100)).

(** [dt.strftime('%Y-%m-%d %H:%M:%S')] (four-digit years) *)
Definition strftime (dt : datetime) : string :=
  String.concat "" [dec4 (year (dt_date dt)); "-"; dec2 (month (dt_date dt)); "-";
                    dec2 (day (dt_date dt)); " "; dec2 (hour dt); ":";
                    dec2 (minute dt); ":"; dec2 (second dt)].

(** Seconds since the epoch of a UTC [datetime]. *)
Definition epoch_seconds (dt : datetime) : Z :=
  days_from_civil (dt_date dt) * 86400 + hour dt * 3600 + minute dt * 60 + second dt.

(** The UTC wall-clock reading of an epoch offset in seconds. *)
Definition utc_datetime (ts : Z) : datetime :=
  mkDatetime (civil_from_days (ts / 86400))
    (ts mod 86400 / 3600) (ts mod 3600 / 60) (ts mod 60).

(** [range(a, b, -1)] *)
Definition range_down (a b : Z) : list Z :=
  List.map (fun i => a - Z.of_nat i) (seq 0 (Z.to_nat (a - b))).

Record BlockData `{PyFloat} := mkBlockData {
  bd_block_number : Z;
  bd_timestamp : string;
  transaction_count : nat;
  base_fee_per_gas_gwei : pyfloat
}.

(** ** Vocabulary of the properties

    The extraction seen as a fold: the record a block gives rise to,
    stated on its own, to be compared with what the loop appends. *)

(** The world after more events have been observed. *)
Definition after `{PyFloat} (w : world) (evs : list event) : world :=
  {| trace := trace w ++ evs; fs := fs w |}.

(** The base fee in gwei as a float, when [from_wei] accepts the
    amount. *)
Definition gwei `{PyFloat} (fee : Z) : option pyfloat :=
  if fee =? 0 then Some (float_of_Q (inject_Z 0))
  else if (fee <? 1) || (2 ^ 256 - 1 <? fee) then None
  else Some (float_of_Q (fee # 1000000000)).

(** The record one delivered block gives rise to, when its timestamp
    fits a [datetime] and its base fee, if any, is one [from_wei]
    accepts. *)
Definition record_of `{PyFloat} (b : Block) : option BlockData :=
  if in_datetime_range (timestamp b) then
    fee ← match baseFeePerGas b with
          | Some fee => gwei fee
          | None => Some fzero
          end;
    Some {| bd_block_number := number b;
            bd_timestamp := strftime (utc_datetime (timestamp b));
            transaction_count := length (transactions b);
            base_fee_per_gas_gwei := fee |}
  else None.

(** *** Reading a rendered date-time

    The way back from a string of the form [YYYY-MM-DD HH:MM:SS] to
    the six numbers it shows, written without [strftime]. *)
Definition digit_value (c : ascii) : option Z :=
  let n := nat_of_ascii c in
  if (48 <=? n)%nat && (n <=? 57)%nat then Some (Z.of_nat n - 48) else None.

(** The number written by the next [k] characters, all of them decimal
    digits, and what follows them. *)
Fixpoint read_number (k : nat) (acc : Z) (s : string) : option (Z * string) :=
  match k, s with
  | O, _ => Some (acc, s)
  | S k', String c rest => d ← digit_value c; read_number k' (10 * acc + d) rest
  | S _, EmptyString => None
  end.

Definition read_char (c : ascii) (s : string) : option string :=
  match s with
  | String c' rest => if Ascii.eqb c c' then Some rest else None
  | EmptyString => None
  end.

Definition parse_timestamp (s : string) : option datetime :=
  '(y, s) ← read_number 4 0 s;
  s ← read_char "-" s;
  '(m, s) ← read_number 2 0 s;
  s ← read_char "-" s;
  '(d, s) ← read_number 2 0 s;
  s ← read_char " " s;
  '(hh, s) ← read_number 2 0 s;
  s ← read_char ":" s;
  '(mm, s) ← read_number 2 0 s;
  s ← read_char ":" s;
  '(ss, s) ← read_number 2 0 s;
  match s with
  | EmptyString => Some (mkDatetime (mkDate y m d) hh mm ss)
  | String _ _ => None
  end.

(** A reading of calendar and clock: a day that exists and a time of
    day. *)
Definition valid_datetime (dt : datetime) : Prop :=
  valid_date (dt_date dt)
  /\ 0 <= hour dt < 24 /\ 0 <= minute dt < 60 /\ 0 <= second dt < 60.

(** What a record says of the block it was made from: the block's
    number, the length of its transaction list, a timestamp of the form
    [YYYY-MM-DD HH:MM:SS] that reads as the day and time of day, in
    UTC, of the block's timestamp to the second, and the base fee in
    gwei as a float, or [0.0] for a block without one. *)
Definition describes `{PyFloat} (b : Block) (r : BlockData) : Prop :=
  bd_block_number r = number b
  /\ transaction_count r = length (transactions b)
  /\ (exists dt, parse_timestamp (bd_timestamp r) = Some dt
                 /\ valid_datetime dt
                 /\ epoch_seconds dt = timestamp b)
  /\ match baseFeePerGas b with
     | Some fee => exists q, (q == fee # 1000000000)%Q
                             /\ base_fee_per_gas_gwei r = float_of_Q q
     | None => base_fee_per_gas_gwei r = fzero
     end.

(** Log lines of a trace by level, and the calls that asked for full
    transaction bodies. *)
Definition is_error_log (e : event) : bool :=
  match e with Log ERROR _ => true | _ => false end.

Definition is_info_log (e : event) : bool :=
  match e with Log INFO _ => true | _ => false end.

Definition wants_bodies (e : event) : bool :=
  match e with GetBlock _ ft => ft | _ => false end.

(** The lines a run of the on-chain [main] starts and can end with. *)
Definition onchain_start_line : event :=
  Log INFO [Txt "Starting on-chain data extraction pipeline..."].
Definition success_line : event := Log INFO [Txt "Pipeline executed successfully."].
Definition failure_line (e : exn) : event :=
  Log ERROR [Txt "Pipeline execution failed: "; FExn e].

(** What visiting block [n] adds to the output, if anything. *)
Definition visit `{PyFloat} (w3 : Web3) (n : Z) : option BlockData :=
  get_block w3 n ≫= record_of.

(** The block numbers [extract_block_data] walks through. *)
Definition window (latest num_blocks : Z) : list Z :=
  range_down latest (Z.max (latest - num_blocks + 1) 0 - 1).

Section Pipeline.
Context `{PyFloat}.
Variable hw : disk.
Variable project_root : string.

Definition emit (e : event) : M (W := world) unit :=
  fun w => (Ret tt, {| trace := trace w ++ [e]; fs := fs w |}).

Definition logger (lvl : level) (msg : list frag) : M unit := emit (Log lvl msg).

(** [w3.eth.get_block(block_num, full_transactions=ft)] *)
Definition eth_get_block (w3 : Web3) (block_num : Z) (ft : bool) : M (W := world) Block :=
  emit (GetBlock block_num ft);;
  match get_block w3 block_num with
  | Some b => ret b
  | None => raise RPCError
  end.

(** [datetime.fromtimestamp(ts, tz=timezone.utc)]; [datetime] covers
    the years 1 to 9999. *)
Definition fromtimestamp_utc (ts : Z) : M (W := world) datetime :=
  if in_datetime_range ts then ret (utc_datetime ts)
  else raise DateRangeError.

(** [w3.from_wei(n, 'gwei')]: [0] for zero, an exact decimal
    otherwise, and a [ValueError] outside [1 .. 2**256 - 1]. *)
Definition from_wei_gwei (n : Z) : M (W := world) num :=
  if n =? 0 then ret (NInt 0)
  else if (n <? 1) || (2 ^ 256 - 1 <? n) then
    raise (ValueError "value must be between 1 and 2**256 - 1")
  else ret (NDecimal (n # 1000000000)).

(** The loop [for block_num in ...] over the block numbers still to
    visit; [data] is the list the loop appends to.  Nothing after the
    [append] can raise, so the handler finds the list as the turn
    found it. *)
Fixpoint for_blocks (w3 : Web3) (num_blocks : Z) (nums : list Z) (data : list BlockData)
  : M (W := world) (list BlockData) :=
  match nums with
  | [] => ret data
  | block_num :: rest =>
    data ← try_except
      (block ← eth_get_block w3 block_num false;
       dt ← fromtimestamp_utc (timestamp block);
       let dt_utc := strftime dt in
       base_fee_gwei ← match baseFeePerGas block with
                       | Some fee => from_wei_gwei fee
                       | None => ret (NFloat fzero)
                       end;
       let block_data := {| bd_block_number := number block;
                            bd_timestamp := dt_utc;
                            transaction_count := length (transactions block);
                            base_fee_per_gas_gwei := float base_fee_gwei |} in
       let data := data ++ [block_data] in
       (if (length data mod 20 =? 0)%nat
        then logger INFO [Txt "Processed "; FNat (length data); Txt "/";
                          FInt num_blocks; Txt " blocks..."]
        else ret tt);;
       ret data)
      (fun e =>
         logger ERROR [Txt "Error extracting data for block "; FInt block_num;
                       Txt ": "; FExn e];;
         ret data);
    for_blocks w3 num_blocks rest data
  end.

Definition extract_block_data (w3 : Web3) (num_blocks : Z) : M (W := world) (list BlockData) :=
  let latest_block_number := block_number w3 in
  logger INFO [Txt "Latest block number: "; FInt latest_block_number];;
  logger INFO [Txt "Extracting data for the last "; FInt num_blocks; Txt " blocks..."];;
  let start_block := latest_block_number - num_blocks + 1 in
  let start_block := if start_block <? 0 then 0 else start_block in
  for_blocks w3 num_blocks (range_down latest_block_number (start_block - 1)) [].

(** *** Writer *)

Definition makedirs (path : string) : M (W := world) unit :=
  fun w =>
    if can_mkdir hw path then
      (Ret tt, {| trace := trace w;
                  fs := {| dirs := {[path]} ∪ dirs (fs w); files := files (fs w);
                           torn := torn (fs w) |} |})
    else (Exc OSError, w).

Definition record_cells (r : BlockData) : list cell :=
  [CInt (bd_block_number r); CStr (bd_timestamp r);
   CInt (Z.of_nat (transaction_count r)); CFloat (base_fee_per_gas_gwei r)].

(** [pd.DataFrame(data).to_csv(path, index=False)] for a non-empty
    list of records: the file is opened in mode [w] and the table
    written to it.  When the write is refused the content of the file
    is not known any more. *)
Definition to_csv (data : list BlockData) (path : string) : M (W := world) unit :=
  fun w =>
    if can_write hw path then
      let table := {| header := ["block_number"; "timestamp"; "transaction_count";
                                 "base_fee_per_gas_gwei"];
                      lines := List.map record_cells data |} in
      (Ret tt, {| trace := trace w;
                  fs := {| dirs := dirs (fs w);
                           files := <[path := table]> (files (fs w));
                           torn := torn (fs w) ∖ {[path]} |} |})
    else
      (Exc OSError, {| trace := trace w;
                       fs := {| dirs := dirs (fs w);
                                files := delete path (files (fs w));
                                torn := {[path]} ∪ torn (fs w) |} |}).

Definition save_to_csv (data : list BlockData) (filename : string) : M (W := world) unit :=
  if is_empty data then
    logger WARNING [Txt "No data to save."]
  else
    let output_dir := path_join project_root "temp_data" in
    makedirs output_dir;;
    let output_path := path_join output_dir filename in
    logger INFO [Txt "Saving "; FNat (length data); Txt " records to ";
                 FStr output_path; Txt "..."];;
    try_except
      (to_csv data output_path;;
       logger INFO [Txt "On-chain data saved successfully."])
      (fun e =>
         logger ERROR [Txt "Error saving to CSV: "; FExn e];;
         raise e).

(** *** Connector and orchestrator *)

(** [os.environ] once [load_dotenv] has run. *)
Variable environ : gmap string string.
(** The node behind a provider URI, with the client version it
    reports; [None] when [is_connected()] is false. *)
Variable node_at : string -> option (Web3 * string).

(** [not s] for an optional string: [None] and [""] are falsy. *)
Definition is_unset (s : option string) : bool :=
  match s with
  | None => true
  | Some v => (String.length v =? 0)%nat
  end.

Definition connect_to_node : M (W := world) Web3 :=
  let provider_uri := environ !! "WEB3_PROVIDER_URI" in
  if is_unset provider_uri then
    logger ERROR [Txt "WEB3_PROVIDER_URI not found in environment variables."];;
    logger ERROR [Txt "Please create a .env file based on .env.example"];;
    raise (ValueError "Missing Web3 Provider URI")
  else
    match node_at (default "" provider_uri) with
    | None =>
      logger ERROR [Txt "Failed to connect to the Ethereum node. Check your RPC URL."];;
      raise (ConnectionError "Web3 connection failed")
    | Some (w3, client_version) =>
      logger INFO [Txt "Successfully connected to Ethereum Node. Client version: ";
                   FStr client_version];;
      ret w3
    end.

Definition main : M (W := world) unit :=
  try_except
    (logger INFO [Txt "Starting on-chain data extraction pipeline..."];;
     w3 ← connect_to_node;
     blocks_data ← extract_block_data w3 100;
     save_to_csv blocks_data "ethereum_onchain_data.csv";;
     logger INFO [Txt "Pipeline executed successfully."])
    (fun e => logger ERROR [Txt "Pipeline execution failed: "; FExn e]).

End Pipeline.

(** The list a run returns ([[]] if it raised). *)
Definition returned `{PyFloat} (run : outcome (list BlockData) * world) : list BlockData :=
  match fst run with Ret data => data | Exc _ => [] end.

End OnChain.

(** * Concrete environments used to run the model *)

(** Floats read as the exact rational they stand for. *)
Definition exact_float : PyFloat :=
  {| pyfloat := Q; float_of_Q := fun q => q; fzero := 0%Q |}.

(** pandas keeping timestamps as nanoseconds in 64 bits: it holds the
    milliseconds whose nanosecond count fits. *)
#[global] Instance datetime64_ns : Pandas.
Proof.
  refine {| datetime64_holds :=
              fun ts => (-9223372036854 <=? ts) && (ts <=? 9223372036854) |}.
  intros ts Hts. apply andb_true_iff in Hts. destruct Hts as [Hlo Hhi].
  apply Z.leb_le in Hlo. apply Z.leb_le in Hhi. lia.
Defined.

Definition any_disk : disk := mkDisk (fun _ => true) (fun _ => true).

Definition empty_fs `{PyFloat} : filesystem := {| dirs := ∅; files := ∅; torn := ∅ |}.

Definition market_start `{PyFloat} : Market.world :=
  {| Market.trace := []; Market.fs := empty_fs |}.

Definition onchain_start `{PyFloat} : OnChain.world :=
  {| OnChain.trace := []; OnChain.fs := empty_fs |}.

(** A payload with one price sample and one volume sample. *)
Definition one_day `{PyFloat} : gmap string Market.series :=
  {[ "prices" := [(1700000000000, NFloat fzero)];
     "total_volumes" := [(1700000000000, NInt 5)] ]}.



(** A node built from a table of block contents: block [n] is delivered
    under the number [n]; an entry that is not a valid block counts as
    a failing call. *)
Definition chain_node (head : Z) (chain : Z -> option (Z * list string * option Z))
  : OnChain.Web3.
Proof.
  refine (OnChain.mkWeb3 head
            (fun n => match chain n with
                      | Some (ts, txs, fee) =>
                        if OnChain.valid_block (OnChain.mkBlock n ts txs fee)
                        then Some (OnChain.mkBlock n ts txs fee) else None
                      | None => None
                      end) _ _).
  - intros n b. destruct (chain n) as [[[ts txs] fee]|]; [|discriminate].
    destruct (OnChain.valid_block _); [|discriminate]. intros [= <-]. reflexivity.
  - intros n b. destruct (chain n) as [[[ts txs] fee]|]; [|discriminate].
    destruct (OnChain.valid_block _) eqn:E; [|discriminate]. intros [= <-]. exact E.
Defined.

(** A chain of 51 blocks (0 to 50), twelve seconds apart. *)
Definition short_chain : OnChain.Web3 :=
  chain_node 50 (fun n => Some (1700000000 + 12 * n, ["0xaa"; "0xbb"], Some 7000000000)).

(** Head 44; the call for block 42 raises; blocks below 43 predate the
    fee market. *)
Definition flaky_node : OnChain.Web3 :=
  chain_node 44 (fun n => if n =? 42 then None
                          else Some (1700000000 + 12 * n, ["0xaa"],
                                     if n <? 43 then None else Some 1500000000)).

(** A price sample and a volume sample a day apart: no timestamp is
    shared, so the joined frame is empty. *)
Definition disjoint_days : gmap string (list (Z * @num exact_float)) :=
  {[ "prices" := [(1700000000000, NInt 1)];
     "total_volumes" := [(1700086400000, NInt 5)] ]}.

(** Three daily samples, the same timestamps on both sides. *)
Definition three_days : gmap string (list (Z * @num exact_float)) :=
  {[ "prices" := [(1700000000000, NInt 1); (1700086400000, NInt 2);
                  (1700172800000, NInt 3)];
     "total_volumes" := [(1700000000000, NInt 10); (1700086400000, NInt 20);
                         (1700172800000, NInt 30)] ]}.



(** A disk on which directories can be made but no file written. *)
Definition full_disk : disk := mkDisk (fun _ => true) (fun _ => false).

(** A frame of one row. *)
Definition one_row : list (@Market.MarketDataPoint exact_float) :=
  [Market.mkPoint (H := exact_float) (mkDate 2023 11 14) (inject_Z 1) (inject_Z 10)].

(** A list of one block record. *)
Definition one_record : list (@OnChain.BlockData exact_float) :=
  [@OnChain.mkBlockData exact_float 44 "2023-11-14 22:22:08" 1%nat (3 # 2)%Q].

(** A node on which every call for a block raises. *)
Definition silent_node : OnChain.Web3 := chain_node 50 (fun _ => None).

(** An environment that names a provider, and one that names none. *)
Definition with_uri : gmap string string := {[ "WEB3_PROVIDER_URI" := "http://node:8545" ]}.
Definition blank_uri : gmap string string := {[ "WEB3_PROVIDER_URI" := "" ]}.


(** An endpoint whose first answer is not JSON and whose later answers
    are the payload. *)
Definition garbled_once `{PyFloat} (r : Market.request) (n : nat) : Market.reply :=
  if (n <? 1)%nat then Market.Garbled 200 else Market.Response 200 one_day.

(** An endpoint that is always rate limited. *)
Definition limited_server `{PyFloat} (r : Market.request) (n : nat) : Market.reply :=
  Market.Response 429 ∅.

(** * The calendar conversions *)
Module CalendarFacts.

(** Year and day of year inside one 400-year era of 146097 days. *)
Lemma era_bounds doe :
  0 <= doe < 146097 ->
  let yoe := (doe - doe / 1460 + doe / 36524 - doe / 146096) / 365 in
  0 <= yoe < 400 /\ 0 <= doe - (365 * yoe + yoe / 4 - yoe / 100) <= 365.
Proof. intros Hdoe yoe. subst yoe. Z.to_euclidean_division_equations; lia. Qed.

(** The date of a day count names that day count. *)
Lemma days_civil_roundtrip z : days_from_civil (civil_from_days z) = z.
Proof.
  unfold civil_from_days.
  set (z' := z + 719468). set (era := z' / 146097). set (doe := z' - era * 146097).
  assert (Hdoe : 0 <= doe < 146097)
    by (subst doe era; Z.to_euclidean_division_equations; lia).
  destruct (era_bounds doe Hdoe) as [Hyoe Hdoy].
  set (yoe := (doe - doe / 1460 + doe / 36524 - doe / 146096) / 365) in *.
  set (doy := doe - (365 * yoe + yoe / 4 - yoe / 100)) in *.
  set (mp := (5 * doy + 2) / 153).
  assert (Hmp : 0 <= mp <= 11) by (subst mp; Z.to_euclidean_division_equations; lia).
  unfold days_from_civil. cbn [year month day].
  destruct (mp <? 10) eqn:E.
  - apply Z.ltb_lt in E.
    replace (mp + 3 <=? 2) with false by (symmetry; apply Z.leb_gt; lia).
    replace ((yoe + era * 400) / 400) with era by (Z.to_euclidean_division_equations; lia).
    replace (mp + 3 - 3) with mp by lia.
    subst doy z'. Z.to_euclidean_division_equations; lia.
  - apply Z.ltb_ge in E.
    replace (mp - 9 <=? 2) with true by (symmetry; apply Z.leb_le; lia).
    replace (yoe + era * 400 + 1 - 1) with (yoe + era * 400) by lia.
    replace ((yoe + era * 400) / 400) with era by (Z.to_euclidean_division_equations; lia).
    replace (mp - 9 + 9) with mp by lia.
    subst doy z'. Z.to_euclidean_division_equations; lia.
Qed.

(** The date of a day count is a day of the calendar. *)
Lemma civil_valid z : valid_date (civil_from_days z).
Proof.
  unfold civil_from_days, valid_date.
  set (z' := z + 719468). set (era := z' / 146097). set (doe := z' - era * 146097).
  assert (Hdoe : 0 <= doe < 146097)
    by (subst doe era; Z.to_euclidean_division_equations; lia).
  set (yoe := (doe - doe / 1460 + doe / 36524 - doe / 146096) / 365).
  set (doy := doe - (365 * yoe + yoe / 4 - yoe / 100)).
  assert (Hy : 0 <= yoe < 400 /\ 0 <= doy <= 365
               /\ (doy = 365 -> is_leap (yoe + 1) = true)).
  { subst doy yoe. unfold is_leap.
    repeat split; try (Z.to_euclidean_division_equations; lia). }
  destruct Hy as (Hyoe & Hdoy & Hleap).
  set (mp := (5 * doy + 2) / 153).
  assert (Hmp : 0 <= mp <= 11) by (subst mp; Z.to_euclidean_division_equations; lia).
  cbn [year month day].
  assert (Hl : is_leap (yoe + era * 400 + 1) = is_leap (yoe + 1)).
  { unfold is_leap. f_equal; [f_equal|]; [| f_equal |]; f_equal;
      Z.to_euclidean_division_equations; lia. }
  destruct (Z.ltb_spec mp 10) as [Hlt|Hge].
  - replace (mp + 3 <=? 2) with false by (symmetry; apply Z.leb_gt; lia).
    split; [lia|]. unfold days_in_month.
    replace (mp + 3 =? 2) with false by (symmetry; apply Z.eqb_neq; lia).
    destruct ((mp + 3 =? 4) || (mp + 3 =? 6) || (mp + 3 =? 9) || (mp + 3 =? 11)) eqn:E;
      subst mp; Z.to_euclidean_division_equations; lia.
  - replace (mp - 9 <=? 2) with true by (symmetry; apply Z.leb_le; lia).
    split; [lia|]. unfold days_in_month. rewrite Hl.
    destruct (Z.eqb_spec (mp - 9) 2) as [E2|E2].
    + destruct (is_leap (yoe + 1)) eqn:EL.
      * subst mp. Z.to_euclidean_division_equations; lia.
      * assert (doy <> 365) by (intros Hd; apply Hleap in Hd; congruence).
        subst mp. Z.to_euclidean_division_equations; lia.
    + replace ((mp - 9 =? 4) || (mp - 9 =? 6) || (mp - 9 =? 9) || (mp - 9 =? 11))
        with false by (symmetry; lia).
      subst mp. Z.to_euclidean_division_equations; lia.
Qed.

(** The days from 0001-01-01 to 9999-12-31 fall in the years 1 to
    9999. *)
Lemma civil_year_range z :
  -719162 <= z <= 2932896 -> 1 <= year (civil_from_days z) <= 9999.
Proof.
  intros Hz. unfold civil_from_days. cbn [year].
  set (z' := z + 719468). set (era := z' / 146097). set (doe := z' - era * 146097).
  set (yoe := (doe - doe / 1460 + doe / 36524 - doe / 146096) / 365).
  set (doy := doe - (365 * yoe + yoe / 4 - yoe / 100)).
  set (mp := (5 * doy + 2) / 153).
  destruct (Z.ltb_spec mp 10) as [Hlt|Hge].
  - destruct (Z.leb_spec (mp + 3) 2);
      subst mp doy yoe doe era z'; Z.to_euclidean_division_equations; lia.
  - destruct (Z.leb_spec (mp - 9) 2);
      subst mp doy yoe doe era z'; Z.to_euclidean_division_equations; lia.
Qed.

Lemma days_in_month_bound y m : 28 <= days_in_month y m <= 31.
Proof.
  unfold days_in_month. destruct (m =? 2); [destruct (is_leap y); lia|].
  destruct ((m =? 4) || (m =? 6) || (m =? 9) || (m =? 11)); lia.
Qed.

(** The year of the era is read back from the day of the era. *)
Lemma yoe_inverse yoe doy :
  0 <= yoe < 400 -> 0 <= doy <= 365 ->
  (doy = 365 -> is_leap (yoe + 1) = true) ->
  let doe := yoe * 365 + yoe / 4 - yoe / 100 + doy in
  0 <= doe < 146097 /\
  (doe - doe / 1460 + doe / 36524 - doe / 146096) / 365 = yoe.
Proof.
  intros Hy Hd Hl doe. subst doe. unfold is_leap in Hl.
  destruct (Z.eq_dec doy 365) as [E|E].
  - specialize (Hl E). subst doy. Z.to_euclidean_division_equations; lia.
  - clear Hl. Z.to_euclidean_division_equations; lia.
Qed.

Lemma is_leap_era y era : is_leap (y + era * 400) = is_leap y.
Proof.
  unfold is_leap. f_equal; [f_equal|]; [| f_equal |]; f_equal;
    Z.to_euclidean_division_equations; lia.
Qed.

(** The date of the day count of year [y'] (counted from March), month
    [mp] (counted from March) and day [dd]. *)
Lemma civil_of_era_day y' mp y m dd :
  0 <= mp <= 11 ->
  m = (if mp <? 10 then mp + 3 else mp - 9) ->
  y = (if m <=? 2 then y' + 1 else y') ->
  let era := y' / 400 in
  let yoe := y' - era * 400 in
  let doy := (153 * mp + 2) / 5 + dd - 1 in
  0 <= doy <= 365 -> (doy = 365 -> is_leap y = true) -> (5 * doy + 2) / 153 = mp ->
  civil_from_days (era * 146097 + (yoe * 365 + yoe / 4 - yoe / 100 + doy) - 719468)
  = mkDate y m dd.
Proof.
  intros Hmp Hm Hy era yoe doy Hdoy Hdl Hmpinv.
  assert (Hyoe : 0 <= yoe < 400) by (subst yoe era; Z.to_euclidean_division_equations; lia).
  assert (Hleap : doy = 365 -> is_leap (yoe + 1) = true).
  { intros E. rewrite <- (is_leap_era (yoe + 1) era). rewrite <- (Hdl E). f_equal.
    assert (Hm2 : (m <=? 2) = true).
    { subst m. destruct (Z.ltb_spec mp 10); [|apply Z.leb_le; lia].
      exfalso. subst doy. revert E. Z.to_euclidean_division_equations; lia. }
    rewrite Hm2 in Hy. subst yoe. lia. }
  destruct (yoe_inverse yoe doy Hyoe Hdoy Hleap) as [Hdoe Hinv].
  set (doe := yoe * 365 + yoe / 4 - yoe / 100 + doy) in *.
  unfold civil_from_days.
  replace (era * 146097 + doe - 719468 + 719468) with (doe + era * 146097) by lia.
  replace ((doe + era * 146097) / 146097) with era
    by (Z.to_euclidean_division_equations; lia).
  replace (doe + era * 146097 - era * 146097) with doe by lia.
  rewrite Hinv.
  replace (doe - (365 * yoe + yoe / 4 - yoe / 100)) with doy by (subst doe; lia).
  rewrite Hmpinv, <- Hm. f_equal.
  - replace (yoe + era * 400) with y' by (subst yoe; lia). now rewrite Hy.
  - subst doy. lia.
Qed.

(** A day of the calendar is the date of its day count. *)
Lemma valid_date_roundtrip d :
  valid_date d -> civil_from_days (days_from_civil d) = d.
Proof.
  destruct d as [y m dd]. unfold valid_date, days_in_month. cbn [year month day].
  intros [Hm Hd]. unfold days_from_civil. cbn [year month day].
  destruct (Z.leb_spec m 2) as [Hle|Hgt].
  - assert (Hc : m = 1 \/ m = 2) by lia.
    apply (civil_of_era_day (y - 1) (m + 9) y m dd).
    + lia.
    + replace (m + 9 <? 10) with false by (symmetry; apply Z.ltb_ge; lia). lia.
    + replace (m <=? 2) with true by (symmetry; apply Z.leb_le; lia). lia.
    + destruct Hc as [->| ->]; cbn [Z.eqb Pos.eqb orb] in Hd;
        [|destruct (is_leap y)]; Z.to_euclidean_division_equations; lia.
    + intros E. destruct Hc as [->| ->]; cbn [Z.eqb Pos.eqb orb] in Hd.
      * exfalso. revert E. Z.to_euclidean_division_equations; lia.
      * destruct (is_leap y); [reflexivity|]. exfalso. revert E.
        Z.to_euclidean_division_equations; lia.
    + destruct Hc as [->| ->]; cbn [Z.eqb Pos.eqb orb] in Hd;
        [|destruct (is_leap y)]; Z.to_euclidean_division_equations; lia.
  - apply (civil_of_era_day y (m - 3) y m dd).
    + lia.
    + replace (m - 3 <? 10) with true by (symmetry; apply Z.ltb_lt; lia). lia.
    + replace (m <=? 2) with false by (symmetry; apply Z.leb_gt; lia). lia.
    + replace (m =? 2) with false in Hd by (symmetry; apply Z.eqb_neq; lia).
      destruct ((m =? 4) || (m =? 6) || (m =? 9) || (m =? 11));
        Z.to_euclidean_division_equations; lia.
    + replace (m =? 2) with false in Hd by (symmetry; apply Z.eqb_neq; lia).
      intros E. exfalso. revert E.
      destruct ((m =? 4) || (m =? 6) || (m =? 9) || (m =? 11));
        Z.to_euclidean_division_equations; lia.
    + replace (m =? 2) with false in Hd by (symmetry; apply Z.eqb_neq; lia).
      assert (Hc : m = 3 \/ m = 4 \/ m = 5 \/ m = 6 \/ m = 7 \/ m = 8 \/ m = 9
                   \/ m = 10 \/ m = 11 \/ m = 12) by lia.
      destruct Hc as [->|[->|[->|[->|[->|[->|[->|[->|[->| ->]]]]]]]]];
        cbn [Z.eqb Pos.eqb orb] in Hd; Z.to_euclidean_division_equations; lia.
Qed.

(** ** Reading back what [strftime] wrote *)

Lemma digit_value_digit x :
  OnChain.digit_value (OnChain.digit (x mod 10)) = Some (x mod 10).
Proof.
  assert (Hx : 0 <= x mod 10 < 10) by (apply Z.mod_pos_bound; lia).
  unfold OnChain.digit_value, OnChain.digit.
  rewrite nat_ascii_embedding by lia.
  replace ((48 <=? 48 + Z.to_nat (x mod 10))%nat && (48 + Z.to_nat (x mod 10) <=? 57)%nat)
    with true.
  - f_equal. lia.
  - symmetry. apply andb_true_iff. split; apply Nat.leb_le; lia.
Qed.

Lemma read_dec2_end n acc :
  OnChain.read_number 2 acc (OnChain.dec2 n) = Some (100 * acc + n mod 100, EmptyString).
Proof.
  unfold OnChain.dec2. cbn [OnChain.read_number].
  repeat (rewrite digit_value_digit; cbn [mbind option_bind]).
  do 2 f_equal. Z.to_euclidean_division_equations; lia.
Qed.

Lemma read_dec2 n acc rest :
  OnChain.read_number 2 acc (String.append (OnChain.dec2 n) rest)
  = Some (100 * acc + n mod 100, rest).
Proof.
  unfold OnChain.dec2.
  change (String.append (String ?a (String ?b EmptyString)) rest)
    with (String a (String b rest)).
  cbn [OnChain.read_number].
  repeat (rewrite digit_value_digit; cbn [mbind option_bind]).
  do 2 f_equal. Z.to_euclidean_division_equations; lia.
Qed.

Lemma read_dec4 n rest :
  0 <= n <= 9999 ->
  OnChain.read_number 4 0 (String.append (OnChain.dec4 n) rest) = Some (n, rest).
Proof.
  intros Hn. unfold OnChain.dec4, OnChain.dec2.
  change (String.append
            (String.append (String ?a (String ?b EmptyString))
                           (String ?c (String ?d EmptyString))) rest)
    with (String a (String b (String c (String d rest)))).
  cbn [OnChain.read_number].
  repeat (rewrite digit_value_digit; cbn [mbind option_bind]).
  do 2 f_equal. Z.to_euclidean_division_equations; lia.
Qed.

Lemma read_char_sep c rest :
  OnChain.read_char c (String.append (String c EmptyString) rest) = Some rest.
Proof.
  change (String.append (String c EmptyString) rest) with (String c rest).
  cbn [OnChain.read_char]. now rewrite Ascii.eqb_refl.
Qed.

(** A date-time of four-digit year and two-digit fields is read back
    from its rendering. *)
Lemma parse_strftime dt :
  0 <= year (OnChain.dt_date dt) <= 9999 ->
  0 <= month (OnChain.dt_date dt) < 100 -> 0 <= day (OnChain.dt_date dt) < 100 ->
  0 <= OnChain.hour dt < 100 -> 0 <= OnChain.minute dt < 100 ->
  0 <= OnChain.second dt < 100 ->
  OnChain.parse_timestamp (OnChain.strftime dt) = Some dt.
Proof.
  destruct dt as [[y m d] hh mm ss]. cbn [OnChain.dt_date year month day OnChain.hour
    OnChain.minute OnChain.second]. intros Hy Hm Hd Hhh Hmm Hss.
  unfold OnChain.parse_timestamp, OnChain.strftime.
  cbn [OnChain.dt_date year month day OnChain.hour OnChain.minute OnChain.second].
  cbv [String.concat].
  repeat change (String.append EmptyString ?s) with s.
  rewrite read_dec4 by exact Hy. cbn [mbind option_bind].
  rewrite read_char_sep. cbn [mbind option_bind].
  rewrite read_dec2. cbn [mbind option_bind].
  rewrite read_char_sep. cbn [mbind option_bind].
  rewrite read_dec2. cbn [mbind option_bind].
  rewrite read_char_sep. cbn [mbind option_bind].
  rewrite read_dec2. cbn [mbind option_bind].
  rewrite read_char_sep. cbn [mbind option_bind].
  rewrite read_dec2. cbn [mbind option_bind].
  rewrite read_char_sep. cbn [mbind option_bind].
  rewrite read_dec2_end. cbn [mbind option_bind].
  rewrite !Z.mod_small by lia. reflexivity.
Qed.

(** A UTC reading denotes the instant it was taken from, to the second. *)
Lemma utc_datetime_instant ts :
  OnChain.epoch_seconds (OnChain.utc_datetime ts) = ts
  /\ 0 <= OnChain.hour (OnChain.utc_datetime ts) < 24
  /\ 0 <= OnChain.minute (OnChain.utc_datetime ts) < 60
  /\ 0 <= OnChain.second (OnChain.utc_datetime ts) < 60.
Proof.
  unfold OnChain.epoch_seconds, OnChain.utc_datetime.
  cbn [OnChain.dt_date OnChain.hour OnChain.minute OnChain.second].
  rewrite days_civil_roundtrip. repeat split; Z.to_euclidean_division_equations; lia.
Qed.

(** ** Writing back what [parse_timestamp] read *)

Lemma digit_value_inv c d :
  OnChain.digit_value c = Some d -> 0 <= d <= 9 /\ c = OnChain.digit d.
Proof.
  unfold OnChain.digit_value, OnChain.digit.
  destruct ((48 <=? nat_of_ascii c)%nat && (nat_of_ascii c <=? 57)%nat) eqn:E; [|discriminate].
  apply andb_true_iff in E. destruct E as [Hlo Hhi].
  apply Nat.leb_le in Hlo. apply Nat.leb_le in Hhi. intros [= <-]. split; [lia|].
  replace (48 + Z.to_nat (Z.of_nat (nat_of_ascii c) - 48))%nat with (nat_of_ascii c) by lia.
  symmetry. apply ascii_nat_embedding.
Qed.

Lemma dec2_digits a b :
  0 <= a <= 9 -> 0 <= b <= 9 ->
  OnChain.dec2 (10 * a + b)
  = String (OnChain.digit a) (String (OnChain.digit b) EmptyString).
Proof.
  intros Ha Hb. unfold OnChain.dec2.
  replace ((10 * a + b) / 10 mod 10) with a by (Z.to_euclidean_division_equations; lia).
  replace ((10 * a + b) mod 10) with b by (Z.to_euclidean_division_equations; lia).
  reflexivity.
Qed.

Lemma read_number2_inv s n rest :
  OnChain.read_number 2 0 s = Some (n, rest) ->
  0 <= n < 100 /\ s = String.append (OnChain.dec2 n) rest.
Proof.
  destruct s as [|c1 [|c2 s]]; cbn [OnChain.read_number]; try discriminate.
  - destruct (OnChain.digit_value c1); discriminate.
  - destruct (OnChain.digit_value c1) as [a|] eqn:E1; [|discriminate].
    cbn [mbind option_bind].
    destruct (OnChain.digit_value c2) as [b|] eqn:E2; [|discriminate].
    cbn [mbind option_bind]. intros [= <- <-].
    apply digit_value_inv in E1, E2. destruct E1 as [Ha ->], E2 as [Hb ->].
    split; [lia|]. replace (10 * (10 * 0 + a) + b) with (10 * a + b) by lia.
    now rewrite dec2_digits.
Qed.

Lemma read_number4_inv s n rest :
  OnChain.read_number 4 0 s = Some (n, rest) ->
  0 <= n <= 9999 /\ s = String.append (OnChain.dec4 n) rest.
Proof.
  destruct s as [|c1 [|c2 [|c3 [|c4 s]]]]; cbn [OnChain.read_number];
    repeat (match goal with
            | |- context [OnChain.digit_value ?c] =>
                let E := fresh "E" in
                destruct (OnChain.digit_value c) eqn:E; cbn [mbind option_bind]
            end); try discriminate.
  intros [= <- <-].
  repeat match goal with
         | E : OnChain.digit_value _ = Some _ |- _ =>
             apply digit_value_inv in E; destruct E as [? ->]
         end.
  split; [lia|]. unfold OnChain.dec4.
  match goal with
  | |- context [10 * (10 * (10 * (10 * 0 + ?a) + ?b) + ?c) + ?d] =>
      replace ((10 * (10 * (10 * (10 * 0 + a) + b) + c) + d) / 100) with (10 * a + b)
        by (Z.to_euclidean_division_equations; lia);
      replace ((10 * (10 * (10 * (10 * 0 + a) + b) + c) + d) mod 100) with (10 * c + d)
        by (Z.to_euclidean_division_equations; lia)
  end.
  rewrite !dec2_digits by lia. reflexivity.
Qed.

Lemma read_char_inv c s rest :
  OnChain.read_char c s = Some rest -> s = String.append (String c EmptyString) rest.
Proof.
  destruct s as [|c' s]; cbn [OnChain.read_char]; [discriminate|].
  destruct (Ascii.eqb_spec c c') as [->|]; [|discriminate]. now intros [= <-].
Qed.

(** A string that reads as a date-time is the rendering of what it
    reads as. *)
Lemma parse_timestamp_inv s dt :
  OnChain.parse_timestamp s = Some dt -> s = OnChain.strftime dt.
Proof.
  unfold OnChain.parse_timestamp.
  destruct (OnChain.read_number 4 0 s) as [[y s1]|] eqn:Ey; [|discriminate].
  cbn [mbind option_bind].
  destruct (OnChain.read_char "-" s1) as [s2|] eqn:E1; [|discriminate].
  cbn [mbind option_bind].
  destruct (OnChain.read_number 2 0 s2) as [[m s3]|] eqn:Em; [|discriminate].
  cbn [mbind option_bind].
  destruct (OnChain.read_char "-" s3) as [s4|] eqn:E2; [|discriminate].
  cbn [mbind option_bind].
  destruct (OnChain.read_number 2 0 s4) as [[d s5]|] eqn:Ed; [|discriminate].
  cbn [mbind option_bind].
  destruct (OnChain.read_char " " s5) as [s6|] eqn:E3; [|discriminate].
  cbn [mbind option_bind].
  destruct (OnChain.read_number 2 0 s6) as [[hh s7]|] eqn:Eh; [|discriminate].
  cbn [mbind option_bind].
  destruct (OnChain.read_char ":" s7) as [s8|] eqn:E4; [|discriminate].
  cbn [mbind option_bind].
  destruct (OnChain.read_number 2 0 s8) as [[mm s9]|] eqn:En; [|discriminate].
  cbn [mbind option_bind].
  destruct (OnChain.read_char ":" s9) as [s10|] eqn:E5; [|discriminate].
  cbn [mbind option_bind].
  destruct (OnChain.read_number 2 0 s10) as [[ss s11]|] eqn:Es; [|discriminate].
  cbn [mbind option_bind].
  destruct s11; [|discriminate]. intros [= <-].
  apply read_number4_inv in Ey. apply read_number2_inv in Em, Ed, Eh, En, Es.
  apply read_char_inv in E1, E2, E3, E4, E5.
  destruct Ey as [_ ->], Em as [_ ->], Ed as [_ ->], Eh as [_ ->], En as [_ ->],
    Es as [_ ->].
  subst. reflexivity.
Qed.

(** One reading only is a valid date-time of a given instant. *)
Lemma valid_datetime_instant dt ts :
  OnChain.valid_datetime dt -> OnChain.epoch_seconds dt = ts -> dt = OnChain.utc_datetime ts.
Proof.
  destruct dt as [dd hh mm ss]. unfold OnChain.valid_datetime, OnChain.epoch_seconds,
    OnChain.utc_datetime. cbn [OnChain.dt_date OnChain.hour OnChain.minute OnChain.second].
  intros (Hvalid & Hh & Hm & Hs) Hts.
  assert (Hday : days_from_civil dd = ts / 86400)
    by (Z.to_euclidean_division_equations; lia).
  rewrite <- Hday, (valid_date_roundtrip dd Hvalid).
  f_equal; Z.to_euclidean_division_equations; lia.
Qed.

(** The rendering of a UTC reading inside [datetime]'s range reads
    back as that reading, which is a day of the calendar and a time of
    day. *)
Lemma utc_datetime_read ts :
  OnChain.in_datetime_range ts = true ->
  OnChain.parse_timestamp (OnChain.strftime (OnChain.utc_datetime ts))
    = Some (OnChain.utc_datetime ts)
  /\ OnChain.valid_datetime (OnChain.utc_datetime ts)
  /\ OnChain.epoch_seconds (OnChain.utc_datetime ts) = ts.
Proof.
  intros Hts. unfold OnChain.in_datetime_range in Hts.
  apply andb_true_iff in Hts. destruct Hts as [Hlo Hhi].
  apply Z.leb_le in Hlo. apply Z.leb_le in Hhi.
  destruct (utc_datetime_instant ts) as (Hsec & Hh & Hm & Hs).
  pose proof (civil_valid (ts / 86400)) as Hvalid.
  assert (Hyear : 1 <= year (civil_from_days (ts / 86400)) <= 9999).
  { apply civil_year_range. Z.to_euclidean_division_equations; lia. }
  split; [|split; [|exact Hsec]].
  - destruct Hvalid as [Hmonth Hday].
    pose proof (days_in_month_bound (year (civil_from_days (ts / 86400)))
                  (month (civil_from_days (ts / 86400)))) as Hdim.
    apply parse_strftime; cbn [OnChain.utc_datetime OnChain.dt_date OnChain.hour
      OnChain.minute OnChain.second] in *; lia.
  - unfold OnChain.valid_datetime. cbn [OnChain.utc_datetime OnChain.dt_date] in *.
    repeat split; try apply Hvalid; lia.
Qed.

Example civil_epoch : civil_from_days 0 = mkDate 1970 1 1.
Proof. reflexivity. Qed.

Example civil_leap_day : civil_from_days 19782 = mkDate 2024 2 29.
Proof. reflexivity. Qed.

Example civil_before_epoch : civil_from_days (-1) = mkDate 1969 12 31.
Proof. reflexivity. Qed.

Example strftime_sample :
  OnChain.strftime (OnChain.utc_datetime 1700000000) = "2023-11-14 22:13:20".
Proof. reflexivity. Qed.

End CalendarFacts.

(** * Properties of the market fetcher *)
Module FetchFacts.
Import Market.

Lemma net_app (t1 t2 : list event) : net (t1 ++ t2) = net t1 ++ net t2.
Proof. unfold net. apply List.filter_app. Qed.

Lemma gets_app (t1 t2 : list event) : gets (t1 ++ t2) = gets t1 ++ gets t2.
Proof. unfold gets. apply List.filter_app. Qed.

Lemma retry_pattern_S r k :
  retry_pattern r (S k) = [HttpGet r; Sleep 5] ++ retry_pattern r k.
Proof.
  unfold retry_pattern. change (seq 0 (S k)) with (0%nat :: seq 1 k).
  rewrite <- seq_shift. cbn [flat_map]. f_equal.
  induction (seq 0 k) as [|x l IH]; [reflexivity|].
  cbn [List.map flat_map]. now rewrite IH.
Qed.


Lemma sleeps_retry_pattern r k : sleeps (retry_pattern r k) = repeat (Sleep 5) k.
Proof.
  induction k as [|k IH]; [reflexivity|].
  rewrite retry_pattern_S. unfold sleeps in *. rewrite List.filter_app, IH. reflexivity.
Qed.

Section Fetch.
Context `{PyFloat}.
Variable server : request -> nat -> reply.

Lemma after_after (w : world) e1 e2 : after (after w e1) e2 = after w (e1 ++ e2).
Proof. unfold after. cbn. now rewrite <- app_assoc. Qed.

Lemma after_nil (w : world) : after w [] = w.
Proof. destruct w. unfold after. cbn. now rewrite app_nil_r. Qed.

Lemma ok_status_not_429 st : is_error_status st = false -> (st =? 429) = false.
Proof.
  intros Hok. apply Z.eqb_neq. intros ->. discriminate Hok.
Qed.

(** One turn of the retry loop: the reply either sends the loop into
    its next turn, after the lines of the turn and the wait, or decides
    the call. *)
Lemma attempts_step u p mr r a (w : world) :
  attempts server u p mr (S r) a w =
  let q := mkRequest u p 10 in
  let rep := server q (length (gets (trace w))) in
  if retryable rep && (a <? mr) then
    attempts server u p mr r (a + 1)
      (after w (HttpGet q :: turn_lines rep a mr ++ [Sleep 5]))
  else (outcome_of rep, after w (HttpGet q :: turn_lines rep a mr)).
Proof.
  cbn [attempts].
  unfold try_except, mbind, M_bind, bind, requests_get, raise_for_status, response_json.
  cbn [fst snd]. cbv zeta.
  destruct (server _ _) as [st body| |st|st t|st];
    cbn [fst snd retryable outcome_of]; unfold turn_lines; cbn [failure_of].
  all: try (destruct (is_error_status st) eqn:Es; cbn;
            [destruct (st =? 429) eqn:E429; cbn
            |rewrite ?(ok_status_not_429 st Es); cbn]).
  all: destruct (a <? mr) eqn:Ea; cbn; unfold after; cbn;
    rewrite <- ?app_assoc; reflexivity.
Qed.

(** A turn that goes on costs one request and one wait. *)
Lemma attempts_go u p mr r a (w : world) :
  retryable (server (mkRequest u p 10) (length (gets (trace w)))) = true ->
  a < mr ->
  exists mid,
    attempts server u p mr (S r) a w = attempts server u p mr r (a + 1) (after w mid)
    /\ net mid = [HttpGet (mkRequest u p 10); Sleep 5]
    /\ gets mid = [HttpGet (mkRequest u p 10)].
Proof.
  intros Hre Ha. rewrite attempts_step. cbv zeta. rewrite Hre.
  replace (a <? mr) with true by (symmetry; apply Z.ltb_lt; lia). cbn [andb].
  eexists. split; [reflexivity|].
  assert (Hlines : forall l : list event,
             forallb (fun e => negb (is_get e || is_sleep e)) l = true ->
             net (HttpGet (mkRequest u p 10) :: l ++ [Sleep 5])
               = [HttpGet (mkRequest u p 10); Sleep 5]
             /\ gets (HttpGet (mkRequest u p 10) :: l ++ [Sleep 5])
               = [HttpGet (mkRequest u p 10)]).
  { intros l Hl. unfold net, gets. cbn [List.filter is_get is_sleep orb]. split; f_equal.
    - rewrite List.filter_app. cbn.
      induction l as [|e l IH]; [reflexivity|]. cbn [forallb] in Hl.
      apply andb_true_iff in Hl. destruct Hl as [He Hl]. cbn [List.filter app].
      apply negb_true_iff in He. rewrite He. now apply IH.
    - rewrite List.filter_app. cbn. rewrite app_nil_r.
      induction l as [|e l IH]; [reflexivity|]. cbn [forallb] in Hl.
      apply andb_true_iff in Hl. destruct Hl as [He Hl]. cbn [List.filter].
      apply negb_true_iff, orb_false_iff in He. destruct He as [He _]. rewrite He.
      now apply IH. }
  apply Hlines. unfold turn_lines.
  destruct (failure_of _) as [[]|]; try reflexivity.
  destruct (_ =? 429); [destruct (a <? mr)|]; reflexivity.
Qed.

(** The lines of a turn are log lines. *)
Lemma turn_lines_logs (rep : reply) a mr :
  forallb (fun e => negb (is_get e || is_sleep e)) (turn_lines rep a mr) = true.
Proof.
  unfold turn_lines. destruct (failure_of rep) as [[]|]; try reflexivity.
  destruct (_ =? 429); [destruct (a <? mr)|]; reflexivity.
Qed.

Lemma net_turn q (rep : reply) a mr :
  net (HttpGet q :: turn_lines rep a mr) = [HttpGet q].
Proof.
  unfold net. cbn [List.filter is_get orb]. f_equal.
  pose proof (turn_lines_logs rep a mr) as Hl.
  induction (turn_lines rep a mr) as [|e l IH]; [reflexivity|].
  cbn [forallb] in Hl. apply andb_true_iff in Hl. destruct Hl as [He Hl].
  cbn [List.filter]. apply negb_true_iff in He. rewrite He. now apply IH.
Qed.

(** A turn that decides the call costs one request. *)
Lemma attempts_stop u p mr r a (w : world) :
  retryable (server (mkRequest u p 10) (length (gets (trace w)))) = false \/ mr <= a ->
  exists last,
    attempts server u p mr (S r) a w
      = (outcome_of (server (mkRequest u p 10) (length (gets (trace w)))), after w last)
    /\ net last = [HttpGet (mkRequest u p 10)].
Proof.
  intros Hstop. rewrite attempts_step. cbv zeta.
  replace (retryable (server (mkRequest u p 10) (length (gets (trace w)))) && (a <? mr))
    with false.
  - eexists. split; [reflexivity|apply net_turn].
  - symmetry. apply andb_false_iff.
    destruct Hstop as [Hre|Ha]; [now left|right; apply Z.ltb_ge; lia].
Qed.



Lemma fetch_unfold coin_id currency days mr (w : world) :
  fetch_market_data server coin_id currency days mr w =
  attempts server (url (chart_request currency days)) (params (chart_request currency days))
    mr (Z.to_nat mr) 1 (after w [fetch_banner coin_id currency days]).
Proof. reflexivity. Qed.

Lemma asks_only_app q e1 e2 : asks_only q e1 -> asks_only q e2 -> asks_only q (e1 ++ e2).
Proof. intros H1 H2 r Hin. apply in_app_or in Hin. destruct Hin; auto. Qed.

Lemma asks_only_turn q (l : list event) :
  forallb (fun e => negb (is_get e)) l = true -> asks_only q (HttpGet q :: l).
Proof.
  intros Hl r [Heq|Hin]; [now inversion Heq|].
  rewrite forallb_forall in Hl. apply Hl in Hin. discriminate.
Qed.

(** The loop looks at the world only through the number of requests
    already sent, and every request it sends is the one it was given. *)
Lemma attempts_world u p mr r : forall a (w1 w2 : world),
  length (gets (trace w1)) = length (gets (trace w2)) ->
  exists res new,
    attempts server u p mr r a w1 = (res, after w1 new)
    /\ attempts server u p mr r a w2 = (res, after w2 new)
    /\ asks_only (mkRequest u p 10) new.
Proof.
  induction r as [|r IH]; intros a w1 w2 Hlen.
  - exists (Ret PyNone), []. rewrite !after_nil. repeat split. intros ? [].
  - rewrite !attempts_step. cbv zeta. rewrite <- Hlen.
    set (q := mkRequest u p 10).
    assert (Hnext : forall l, forallb (fun e => negb (is_get e)) l = true ->
              exists res new,
                attempts server u p mr r (a + 1) (after w1 (HttpGet q :: l))
                  = (res, after w1 new)
                /\ attempts server u p mr r (a + 1) (after w2 (HttpGet q :: l))
                  = (res, after w2 new)
                /\ asks_only q new).
    { intros l Hl.
      destruct (IH (a + 1) (after w1 (HttpGet q :: l)) (after w2 (HttpGet q :: l)))
        as (res & new & E1 & E2 & Hq).
      - cbn [after trace]. rewrite !gets_app, !length_app. lia.
      - exists res, ((HttpGet q :: l) ++ new). rewrite E1, E2, !after_after.
        repeat split. apply asks_only_app; [now apply asks_only_turn | exact Hq]. }
    assert (Hstop : forall (res : outcome pyobj) l, forallb (fun e => negb (is_get e)) l = true ->
              exists res' new,
                (res, after w1 (HttpGet q :: l)) = (res', after w1 new)
                /\ (res, after w2 (HttpGet q :: l)) = (res', after w2 new)
                /\ asks_only q new).
    { intros res l Hl. exists res, (HttpGet q :: l). repeat split.
      now apply asks_only_turn. }
    assert (Hlines : forall rep : reply,
              forallb (fun e => negb (is_get e)) (turn_lines rep a mr) = true).
    { intros rep. pose proof (turn_lines_logs rep a mr) as Hl.
      rewrite forallb_forall in Hl. apply forallb_forall. intros e He.
      apply Hl in He. apply negb_true_iff, orb_false_iff in He.
      apply negb_true_iff. tauto. }
    destruct (retryable (server q _) && (a <? mr)).
    + apply Hnext. rewrite forallb_app, Hlines. reflexivity.
    + apply Hstop, Hlines.
Qed.

Lemma banner_gets coin_id currency days (w : world) :
  length (gets (trace (after w [fetch_banner coin_id currency days])))
  = length (gets (trace w)).
Proof. cbn [after trace]. rewrite gets_app, length_app. cbn. lia. Qed.

(** C1 (as the code has it): the run of [fetch_market_data] does not
    depend on the coin identifier.  For any two identifiers the outcome
    (payload or exception) is the same and the events after the opening
    log line, among them every HTTP request, are the same; the
    identifier only shows in that log line, and every request goes to
    the one constant URL of [chart_request].  The request target is thus
    not a function of the coin identifier. *)
Theorem fetch_ignores_coin_id coin1 coin2 currency days max_retries (w : world) :
  exists res new,
    fetch_market_data server coin1 currency days max_retries w
      = (res, after w (fetch_banner coin1 currency days :: new))
    /\ fetch_market_data server coin2 currency days max_retries w
      = (res, after w (fetch_banner coin2 currency days :: new))
    /\ asks_only (chart_request currency days) new.
Proof.
  rewrite !fetch_unfold.
  set (u := url _). set (p := params _).
  destruct (attempts_world u p max_retries (Z.to_nat max_retries) 1
              (after w [fetch_banner coin1 currency days])
              (after w [fetch_banner coin2 currency days])) as (res & new & E1 & E2 & Hq).
  { now rewrite !banner_gets. }
  exists res, new. rewrite E1, E2, !after_after. repeat split. exact Hq.
Qed.

(** C10: with [max_retries <= 0] the range of the loop is empty: the
    function logs its opening line, sends no HTTP request, does not
    wait, raises nothing and returns [None]. *)
Theorem fetch_without_attempts coin_id currency days max_retries (w : world) :
  max_retries <= 0 ->
  fetch_market_data server coin_id currency days max_retries w
    = (Ret PyNone, after w [fetch_banner coin_id currency days])
  /\ net (trace (snd (fetch_market_data server coin_id currency days max_retries w)))
    = net (trace w).
Proof.
  intros Hle. rewrite fetch_unfold.
  replace (Z.to_nat max_retries) with 0%nat by lia.
  cbn [attempts]. unfold ret. split; [reflexivity|].
  cbn [snd after trace]. rewrite net_app. cbn. apply app_nil_r.
Qed.


End Fetch.

Lemma fetch_without_attempts_witness :
  0 <= 0
  /\ fetch_market_data (H := exact_float) limited_server "ethereum" "usd" 7 0 market_start
      = (Ret PyNone, after market_start [fetch_banner "ethereum" "usd" 7]).
Proof.
  split; [lia|].
  apply (@fetch_without_attempts exact_float limited_server "ethereum" "usd" 7 0 market_start).
  lia.
Defined.


End FetchFacts.

(** * Properties of the market transformer *)
Module TransformFacts.
Import Market.

Section Transform.
Context `{PyFloat} `{Pandas}.

(** ** The inner join *)





(** ** Dropping duplicate dates *)








(** ** The whole transformer *)




(** C8: when the payload has no [prices] key or no [total_volumes] key,
    or one of the two series is the empty list, the transformer raises
    the [ValueError] of its validation, logs it, returns no frame and
    leaves the file system as it was. *)
Theorem process_rejects_empty raw (w : world) :
  raw !! "prices" = None \/ raw !! "prices" = Some []
  \/ raw !! "total_volumes" = None \/ raw !! "total_volumes" = Some [] ->
  let e := ValueError "API response is missing 'prices' or 'total_volumes' data." in
  process_market_data raw w
  = (Exc e, after w [process_banner; Log ERROR [Txt "Error processing market data: "; FExn e]])
  /\ fs (snd (process_market_data raw w)) = fs w.
Proof.
  intros Hempty e.
  assert (Hb : is_empty (get_series raw "prices")
               || is_empty (get_series raw "total_volumes") = true).
  { unfold get_series, series in *.
    destruct Hempty as [E|[E|[E|E]]]; rewrite E; cbn; [reflexivity|reflexivity| |];
      apply orb_true_r. }
  assert (Hrun : process_market_data raw w
                 = (Exc e, after w [process_banner;
                                    Log ERROR [Txt "Error processing market data: "; FExn e]])).
  { unfold process_market_data, try_except, mbind, M_bind, bind, logger, emit.
    rewrite Hb. unfold raise, after. cbn. now rewrite <- app_assoc. }
  split; [exact Hrun|]. now rewrite Hrun.
Qed.




End Transform.

Lemma process_rejects_empty_witness :
  (∅ : gmap string (list (Z * @num exact_float))) !! "prices" = None
  /\ fst (process_market_data (H := exact_float) ∅ market_start)
     = Exc (ValueError "API response is missing 'prices' or 'total_volumes' data.").
Proof.
  split; [reflexivity|].
  destruct (@process_rejects_empty exact_float _ ∅ market_start) as [Hrun _].
  - left. reflexivity.
  - rewrite Hrun. reflexivity.
Defined.



End TransformFacts.


(** * Properties of the block extractor *)
Module ExtractFacts.
Import OnChain.

Lemma attempted_app (t1 t2 : list event) : attempted (t1 ++ t2) = attempted t1 ++ attempted t2.
Proof. unfold attempted. apply omap_app. Qed.

Lemma in_range_down a b n : In n (range_down a b) <-> b < n <= a.
Proof.
  unfold range_down. rewrite in_map_iff. split.
  - intros (i & <- & Hi). apply in_seq in Hi. lia.
  - intros Hn. exists (Z.to_nat (a - n)). split; [lia|]. apply in_seq. lia.
Qed.

Lemma length_range_down a b : length (range_down a b) = Z.to_nat (a - b).
Proof. unfold range_down. now rewrite length_map, length_seq. Qed.

Lemma range_down_descending a b : StronglySorted Z.gt (range_down a b).
Proof.
  unfold range_down. generalize (Z.to_nat (a - b)) as k. intros k.
  generalize 0%nat as s. induction k as [|k IH]; intros s; cbn [seq List.map].
  - constructor.
  - constructor; [apply IH|]. apply List.Forall_forall. intros x Hx.
    apply in_map_iff in Hx. destruct Hx as (i & <- & Hi). apply in_seq in Hi. lia.
Qed.

Lemma range_down_enum a b :
  range_down a b = List.map (fun i => a - Z.of_nat i) (seq 0 (Z.to_nat (a - b))).
Proof. reflexivity. Qed.

(** Closes a goal [exists evs, run = rest (after w evs) /\ attempted evs = l]
    once the run has been reduced to its final world. *)
Ltac turn_done :=
  rewrite ?app_nil_r; eexists; split;
  [ unfold after; cbn [trace fs float]; rewrite <- ?app_assoc; reflexivity
  | reflexivity ].

Section Extract.
Context `{PyFloat}.

Lemma after_more (w : world) e1 e2 : after (after w e1) e2 = after w (e1 ++ e2).
Proof. unfold after. cbn. now rewrite <- app_assoc. Qed.

(** One turn of the loop: the node is asked for [n] and nothing else,
    the turn never raises, and the list grows by the record of [n] if
    there is one. *)
Lemma for_blocks_turn (w3 : Web3) num_blocks n rest data (w : world) :
  exists evs,
    for_blocks w3 num_blocks (n :: rest) data w
      = for_blocks w3 num_blocks rest
          (data ++ match visit w3 n with Some r => [r] | None => [] end) (after w evs)
    /\ attempted evs = [n].
Proof.
  cbn [for_blocks].
  unfold visit, record_of, gwei, try_except, eth_get_block, fromtimestamp_utc,
    from_wei_gwei, logger, emit, raise, ret, mbind, M_bind, bind, mret.
  cbv beta iota zeta.
  destruct (get_block w3 n) as [b|]; cbn [option_bind]; cbv beta iota zeta;
    [|turn_done].
  destruct (in_datetime_range (timestamp b)); cbv beta iota zeta; [|turn_done].
  destruct (baseFeePerGas b) as [fee|]; cbn [option_bind]; cbv beta iota zeta.
  - destruct (fee =? 0); cbn [option_bind]; cbv beta iota zeta.
    + destruct (_ =? 0)%nat; cbv beta iota zeta; turn_done.
    + destruct ((fee <? 1) || (2 ^ 256 - 1 <? fee)); cbn [option_bind];
        cbv beta iota zeta; [turn_done|].
      destruct (_ =? 0)%nat; cbv beta iota zeta; turn_done.
  - unfold option_ret. cbn [option_bind]. cbv beta iota zeta.
    destruct (_ =? 0)%nat; cbv beta iota zeta; turn_done.
Qed.

(** The loop never raises; it asks for the numbers it was given, in
    order, and appends to [data] the records of those that have one. *)
Lemma for_blocks_run (w3 : Web3) num_blocks nums : forall data (w : world),
  exists evs,
    for_blocks w3 num_blocks nums data w
      = (Ret (data ++ omap (visit w3) nums), after w evs)
    /\ attempted evs = nums.
Proof.
  induction nums as [|n rest IH]; intros data w.
  - exists []. cbn [for_blocks omap]. unfold ret, after. rewrite !app_nil_r.
    destruct w; split; reflexivity.
  - destruct (for_blocks_turn w3 num_blocks n rest data w) as (e1 & E1 & A1).
    destruct (IH (data ++ match visit w3 n with Some r => [r] | None => [] end)
                 (after w e1)) as (e2 & E2 & A2).
    exists (e1 ++ e2). rewrite E1, E2, after_more, attempted_app, A1, A2.
    split; [|reflexivity]. f_equal. f_equal. cbn [omap list_omap].
    rewrite <- app_assoc. f_equal. fold (omap (visit w3) rest).
    now destruct (visit w3 n).
Qed.

Lemma extract_run (w3 : Web3) num_blocks (w : world) :
  exists evs,
    extract_block_data w3 num_blocks w
      = (Ret (omap (visit w3) (window (block_number w3) num_blocks)), after w evs)
    /\ attempted evs = window (block_number w3) num_blocks.
Proof.
  unfold extract_block_data, logger, emit, mbind, M_bind, bind. cbv beta iota zeta.
  replace (if block_number w3 - num_blocks + 1 <? 0 then 0
           else block_number w3 - num_blocks + 1)
    with (Z.max (block_number w3 - num_blocks + 1) 0)
    by (destruct (Z.ltb_spec (block_number w3 - num_blocks + 1) 0); lia).
  fold (window (block_number w3) num_blocks).
  match goal with
  | |- context [for_blocks _ _ _ _ ?w0] =>
      destruct (for_blocks_run w3 num_blocks (window (block_number w3) num_blocks) [] w0)
        as (evs & E & A)
  end.
  rewrite E. cbn [app].
  eexists. split.
  - unfold after. cbn [trace fs]. rewrite <- !app_assoc. reflexivity.
  - rewrite !attempted_app. exact A.
Qed.

(** A record carries the number its block was asked for under. *)
Lemma visit_number (w3 : Web3) n r : visit w3 n = Some r -> bd_block_number r = n.
Proof.
  unfold visit. destruct (get_block w3 n) as [b|] eqn:E; [|discriminate].
  apply get_block_number in E. cbn [mbind option_bind]. unfold record_of.
  destruct (in_datetime_range _); [|discriminate].
  destruct (match baseFeePerGas b with Some fee => gwei fee | None => Some fzero end);
    [|discriminate].
  cbn [mbind option_bind]. intros [= <-]. exact E.
Qed.

Lemma in_omap_visit (w3 : Web3) nums r :
  In r (omap (visit w3) nums) <-> exists n, In n nums /\ visit w3 n = Some r.
Proof.
  rewrite <- list_elem_of_In, list_elem_of_omap.
  split; intros (n & Hn & Hv); exists n; split; try exact Hv; now apply list_elem_of_In.
Qed.

Lemma length_omap_visit (w3 : Web3) nums :
  (length (omap (visit w3) nums) <= length nums)%nat.
Proof.
  induction nums as [|n rest IH]; [reflexivity|]. cbn [omap list_omap].
  fold (omap (visit w3) rest). destruct (visit w3 n); cbn [length]; lia.
Qed.

Lemma records_descending (w3 : Web3) nums :
  StronglySorted Z.gt nums ->
  StronglySorted (fun a b => bd_block_number a > bd_block_number b) (omap (visit w3) nums).
Proof.
  induction 1 as [|n rest Hs IH Hall]; [constructor|].
  cbn [omap list_omap]. fold (omap (visit w3) rest).
  destruct (visit w3 n) as [r|] eqn:E; [|exact IH].
  constructor; [exact IH|]. apply List.Forall_forall. intros r' Hr'.
  apply in_omap_visit in Hr'. destruct Hr' as (m & Hm & Hv).
  rewrite List.Forall_forall in Hall.
  rewrite (visit_number _ _ _ E), (visit_number _ _ _ Hv). now apply Hall.
Qed.

Lemma record_of_representable (b : Block) :
  in_datetime_range (timestamp b) = true ->
  (forall fee, baseFeePerGas b = Some fee -> 0 <= fee < 2 ^ 256) ->
  exists r, record_of b = Some r.
Proof.
  intros Hts Hfee. unfold record_of. rewrite Hts.
  destruct (baseFeePerGas b) as [fee|]; [|eexists; reflexivity].
  specialize (Hfee fee eq_refl). unfold gwei.
  destruct (Z.eqb_spec fee 0); [eexists; reflexivity|].
  replace ((fee <? 1) || (2 ^ 256 - 1 <? fee)) with false; [eexists; reflexivity|].
  symmetry. apply orb_false_intro; [apply Z.ltb_ge|apply Z.ltb_ge]; lia.
Qed.

(** C5: with head [H >= 0] and window size [N >= 1] the extractor
    returns (it does not raise) after asking the node for exactly
    [H, H-1, ..., max (H-N+1) 0], in that strictly descending order and
    never for a negative number; it returns at most [H+1] and at most
    [N] records, in strictly decreasing order of [block_number]. *)
Theorem extract_window (w3 : Web3) num_blocks (w : world) :
  0 <= block_number w3 -> 1 <= num_blocks ->
  let head := block_number w3 in
  exists data evs,
    extract_block_data w3 num_blocks w = (Ret data, after w evs)
    /\ attempted evs
       = List.map (fun i => head - Z.of_nat i)
           (seq 0 (Z.to_nat (Z.min num_blocks (head + 1))))
    /\ (forall n, In n (attempted evs) <-> Z.max (head - num_blocks + 1) 0 <= n <= head)
    /\ StronglySorted Z.gt (attempted evs)
    /\ List.Forall (fun n => 0 <= n) (attempted evs)
    /\ Z.of_nat (length data) <= head + 1
    /\ Z.of_nat (length data) <= num_blocks
    /\ StronglySorted (fun a b => bd_block_number a > bd_block_number b) data.
Proof.
  intros Hhead Hn head.
  destruct (extract_run w3 num_blocks w) as (evs & E & A). fold head in E, A.
  exists (omap (visit w3) (window head num_blocks)), evs.
  split; [exact E|]. rewrite A.
  assert (Hlen : length (window head num_blocks)
                 = Z.to_nat (Z.min num_blocks (head + 1))).
  { unfold window. rewrite length_range_down. lia. }
  split; [|split; [|split; [|split; [|split; [|split]]]]].
  - unfold window. rewrite range_down_enum. do 2 f_equal. lia.
  - intros n. unfold window. rewrite in_range_down. lia.
  - apply range_down_descending.
  - apply List.Forall_forall. intros n Hin. unfold window in Hin.
    apply in_range_down in Hin. lia.
  - pose proof (length_omap_visit w3 (window head num_blocks)). lia.
  - pose proof (length_omap_visit w3 (window head num_blocks)). lia.
  - apply records_descending, range_down_descending.
Qed.

(** A delivered block always yields a record. *)
Lemma visit_delivered (w3 : Web3) n b :
  get_block w3 n = Some b -> exists r, visit w3 n = Some r /\ record_of b = Some r.
Proof.
  intros Hb. pose proof (get_block_valid w3 n b Hb) as Hv.
  unfold valid_block in Hv. apply andb_true_iff in Hv. destruct Hv as [Hts Hfee].
  destruct (record_of_representable b Hts) as (r & Hr).
  - intros fee Hsome. rewrite Hsome in Hfee. apply andb_true_iff in Hfee.
    destruct Hfee as [H0 H1]. apply Z.leb_le in H0. apply Z.ltb_lt in H1. lia.
  - exists r. split; [|exact Hr]. unfold visit. rewrite Hb. exact Hr.
Qed.

Lemma visit_failed (w3 : Web3) n : get_block w3 n = None -> visit w3 n = None.
Proof. intros Hb. unfold visit. now rewrite Hb. Qed.

Lemma length_omap_delivered (w3 : Web3) nums :
  length (omap (visit w3) nums) = length (List.filter (delivered w3) nums).
Proof.
  induction nums as [|n rest IH]; [reflexivity|]. cbn [omap list_omap List.filter].
  fold (omap (visit w3) rest). unfold delivered at 1.
  destruct (get_block w3 n) as [b|] eqn:E.
  - destruct (visit_delivered w3 n b E) as (r & -> & _). cbn [length]. now rewrite IH.
  - rewrite (visit_failed w3 n E). exact IH.
Qed.

(** C4: whatever calls for blocks raise, the extractor returns: the run
    is not aborted.  Every asked block whose call returned a block has
    its record in the returned list, a block whose call raised has
    none, the records before and after a failed call are those of the
    other blocks in the order asked, untouched by the failure, and the
    list holds one record per delivered block, so at most as many as
    blocks asked. *)
Theorem extract_skips_failed_fetches (w3 : Web3) num_blocks (w : world) :
  let asked := window (block_number w3) num_blocks in
  exists data evs,
    extract_block_data w3 num_blocks w = (Ret data, after w evs)
    /\ attempted evs = asked
    /\ (forall n b,
          In n asked -> get_block w3 n = Some b ->
          exists r, In r data /\ bd_block_number r = n /\ record_of b = Some r)
    /\ (forall n,
          In n asked -> get_block w3 n = None ->
          forall r, In r data -> bd_block_number r <> n)
    /\ (forall pre n post,
          asked = pre ++ n :: post -> get_block w3 n = None ->
          data = omap (visit w3) pre ++ omap (visit w3) post)
    /\ length data = length (List.filter (delivered w3) asked)
    /\ (length data <= length asked)%nat.
Proof.
  intros asked.
  destruct (extract_run w3 num_blocks w) as (evs & E & A). fold asked in E, A.
  exists (omap (visit w3) asked), evs.
  split; [exact E|]. split; [exact A|].
  split; [|split; [|split; [|split]]].
  - intros n b Hn Hb. destruct (visit_delivered w3 n b Hb) as (r & Hv & Hr).
    exists r. split; [|split; [now apply (visit_number w3)|exact Hr]].
    apply in_omap_visit. eauto.
  - intros n Hn Hfail r Hr Hnum.
    apply in_omap_visit in Hr. destruct Hr as (m & Hm & Hv).
    pose proof (visit_number _ _ _ Hv) as Hm'. rewrite Hnum in Hm'. subst m.
    rewrite (visit_failed w3 n Hfail) in Hv. discriminate.
  - intros pre n post Hsplit Hfail. rewrite Hsplit, omap_app. f_equal.
    cbn [omap list_omap]. now rewrite (visit_failed w3 n Hfail).
  - apply length_omap_delivered.
  - apply length_omap_visit.
Qed.

Lemma record_of_describes (b : Block) r : record_of b = Some r -> describes b r.
Proof.
  unfold record_of, describes.
  destruct (in_datetime_range (timestamp b)) eqn:Hts; [|discriminate].
  assert (Hdt : exists dt,
             parse_timestamp (strftime (utc_datetime (timestamp b))) = Some dt
             /\ valid_datetime dt /\ epoch_seconds dt = timestamp b).
  { exists (utc_datetime (timestamp b)). now apply CalendarFacts.utc_datetime_read. }
  destruct (baseFeePerGas b) as [fee|].
  - unfold gwei. destruct (fee =? 0) eqn:E0.
    + apply Z.eqb_eq in E0. subst fee. cbn [mbind option_bind]. intros [= <-].
      cbn [bd_block_number bd_timestamp transaction_count base_fee_per_gas_gwei].
      repeat split; [exact Hdt|]. exists (inject_Z 0). split; reflexivity.
    + destruct ((fee <? 1) || (2 ^ 256 - 1 <? fee)); [discriminate|].
      cbn [mbind option_bind]. intros [= <-].
      cbn [bd_block_number bd_timestamp transaction_count base_fee_per_gas_gwei].
      repeat split; [exact Hdt|]. exists (fee # 1000000000). split; reflexivity.
  - cbn [mbind option_bind]. intros [= <-].
    cbn [bd_block_number bd_timestamp transaction_count base_fee_per_gas_gwei].
    repeat split. exact Hdt.
Qed.

(** [describes] leaves the timestamp of a record no freedom: it is the
    string that renders the block's instant. *)
Lemma describes_timestamp (b : Block) r :
  describes b r -> bd_timestamp r = strftime (utc_datetime (timestamp b)).
Proof.
  intros (_ & _ & (dt & Hparse & Hvalid & Hts) & _).
  apply CalendarFacts.parse_timestamp_inv in Hparse.
  rewrite Hparse. f_equal. now apply CalendarFacts.valid_datetime_instant.
Qed.

(** C9: the extractor returns; every asked block that the node
    delivered has a record in the returned list that describes it
    ([transaction_count] the length of its transaction list,
    [timestamp] a string [YYYY-MM-DD HH:MM:SS] that reads as the
    calendar day and time of day, in UTC, of the block's timestamp to
    the second, [base_fee_per_gas_gwei] the float of its base fee over
    10^9, or [0.0] when it has none), and every returned record
    describes the block delivered for its number. *)
Theorem extract_record_fields (w3 : Web3) num_blocks (w : world) :
  exists data evs,
    extract_block_data w3 num_blocks w = (Ret data, after w evs)
    /\ (forall n b,
          In n (attempted evs) -> get_block w3 n = Some b ->
          exists r, In r data /\ describes b r)
    /\ (forall r, In r data ->
          exists b, In (number b) (attempted evs)
                    /\ get_block w3 (number b) = Some b /\ describes b r).
Proof.
  destruct (extract_run w3 num_blocks w) as (evs & E & A).
  exists (omap (visit w3) (window (block_number w3) num_blocks)), evs.
  split; [exact E|]. rewrite A. split.
  - intros n b Hn Hb. destruct (visit_delivered w3 n b Hb) as (r & Hv & Hr).
    exists r. split; [apply in_omap_visit; eauto|now apply record_of_describes].
  - intros r Hr. apply in_omap_visit in Hr. destruct Hr as (n & Hn & Hv).
    unfold visit in Hv. destruct (get_block w3 n) as [b|] eqn:Hb; [|discriminate].
    cbn [mbind option_bind] in Hv. exists b.
    rewrite (get_block_number w3 n b Hb).
    split; [exact Hn|]. split; [exact Hb|now apply record_of_describes].
Qed.

End Extract.

Lemma extract_window_witness :
  0 <= block_number short_chain /\ 1 <= 100
  /\ exists data evs,
      extract_block_data (H := exact_float) short_chain 100 onchain_start
        = (Ret data, after onchain_start evs)
      /\ attempted evs = List.map (fun i => 50 - Z.of_nat i) (seq 0 51)
      /\ Z.of_nat (length data) <= 51.
Proof.
  assert (H0 : 0 <= block_number short_chain) by (cbn; lia).
  assert (H1 : 1 <= 100) by lia.
  split; [exact H0|]. split; [exact H1|].
  destruct (@extract_window exact_float short_chain 100 onchain_start H0 H1)
    as (data & evs & Hrun & Hasked & _ & _ & _ & Hlen & _).
  exists data, evs. split; [exact Hrun|]. split; [exact Hasked|exact Hlen].
Defined.

(** Head 44, five blocks asked, the call for block 42 raises: the four
    other blocks are recorded and no record bears the number 42. *)
Lemma extract_skips_failed_fetches_witness :
  exists data evs,
    extract_block_data (H := exact_float) flaky_node 5 onchain_start
      = (Ret data, after onchain_start evs)
    /\ attempted evs = [44; 43; 42; 41; 40]
    /\ length data = 4%nat
    /\ (forall r, In r data -> bd_block_number r <> 42)
    /\ (exists r, In r data /\ bd_block_number r = 41).
Proof.
  destruct (@extract_skips_failed_fetches exact_float flaky_node 5 onchain_start)
    as (data & evs & Hrun & Hasked & Hsome & Hnone & _ & Hlen & _).
  exists data, evs. split; [exact Hrun|]. split; [exact Hasked|]. split; [exact Hlen|].
  split.
  - apply Hnone.
    + right. right. left. reflexivity.
    + reflexivity.
  - destruct (Hsome 41 (mkBlock 41 1700000492 ["0xaa"] None)) as (r & Hin & Hnum & _).
    + right. right. right. left. reflexivity.
    + reflexivity.
    + exists r. split; assumption.
Defined.

(** Block 44 of [flaky_node] carries a base fee of 1.5 gwei. *)
Lemma extract_record_fields_witness :
  exists data evs,
    extract_block_data (H := exact_float) flaky_node 3 onchain_start
      = (Ret data, after onchain_start evs)
    /\ exists r, In r data
                 /\ describes (mkBlock 44 1700000528 ["0xaa"] (Some 1500000000)) r.
Proof.
  destruct (@extract_record_fields exact_float flaky_node 3 onchain_start)
    as (data & evs & Hrun & Hall & _).
  exists data, evs. split; [exact Hrun|].
  apply (Hall 44).
  - destruct (@extract_run exact_float flaky_node 3 onchain_start) as (evs' & Hrun' & Hasked).
    rewrite Hrun in Hrun'. injection Hrun' as _ Hevs. subst evs'.
    rewrite Hasked. now left.
  - reflexivity.
Defined.

(** A record stamped with a day that does not exist, 2023-10-45, does
    not describe block 44, although 45 October would be 14 November. *)
Example describes_rejects_day_45 :
  ~ describes (mkBlock 44 1700000528 ["0xaa"] (Some 1500000000))
      (@mkBlockData exact_float 44 "2023-10-45 22:22:08" 1%nat (3 # 2)%Q).
Proof.
  intros Hd. apply (describes_timestamp (H := exact_float)) in Hd.
  vm_compute in Hd. discriminate Hd.
Qed.

Example extract_flaky_records :
  returned (extract_block_data (H := exact_float) flaky_node 3 onchain_start)
  = [ @mkBlockData exact_float 44 "2023-11-14 22:22:08" 1%nat (1500000000 # 1000000000)%Q;
      @mkBlockData exact_float 43 "2023-11-14 22:21:56" 1%nat (1500000000 # 1000000000)%Q ].
Proof. reflexivity. Qed.

Example extract_pre_fee_market_record :
  returned (extract_block_data (H := exact_float) flaky_node 4 onchain_start) !! 2%nat
  = Some (@mkBlockData exact_float 41 "2023-11-14 22:21:32" 1%nat 0%Q).
Proof. reflexivity. Qed.

End ExtractFacts.

(** * The two writers on an empty input *)
Module WriterFacts.

(** The on-chain writer returns before it touches the disk. *)
Lemma onchain_save_empty `{PyFloat} hw root filename (w : OnChain.world) :
  OnChain.save_to_csv hw root [] filename w
  = (Ret tt, OnChain.after w [OnChain.Log WARNING [Txt "No data to save."]]).
Proof. reflexivity. Qed.

(** The market writer has no such test: an empty frame goes to disk. *)
Lemma market_save_empty `{PyFloat} hw root filename (w : Market.world) :
  let output_dir := path_join root "temp_data" in
  let output_path := path_join output_dir filename in
  can_mkdir hw output_dir = true -> can_write hw output_path = true ->
  Market.save_to_csv hw root [] filename w
  = (Ret tt,
     {| Market.trace :=
          Market.trace w
          ++ [Market.Log INFO [Txt "Saving data to "; FStr output_path; Txt "..."];
              Market.Log INFO [Txt "Data saved successfully."]];
        Market.fs :=
          {| dirs := {[output_dir]} ∪ dirs (Market.fs w);
             files := <[output_path := {| header := ["date"; "price"; "volume"];
                                          lines := [] |}]> (files (Market.fs w));
             torn := torn (Market.fs w) ∖ {[output_path]} |} |}).
Proof.
  intros output_dir output_path Hdir Hfile.
  unfold Market.save_to_csv, Market.makedirs, Market.to_csv, Market.logger, Market.emit,
    try_except, mbind, M_bind, bind.
  fold output_dir. rewrite Hdir. cbv beta iota zeta. cbn [Market.trace Market.fs dirs files].
  fold output_path. rewrite Hfile. cbn. now rewrite <- app_assoc.
Qed.

(** C2 (as the code has it): the on-chain writer, given an empty list,
    logs a warning, writes nothing and returns; the market writer,
    given the empty frame that [process_market_data] returns for a
    payload without a shared timestamp, logs no warning and leaves a
    header-only file on disk. *)
Theorem market_writer_writes_empty_frame :
  let run := Market.save_to_csv (H := exact_float) any_disk "/repo" []
               "ethereum_market_data.csv" market_start in
  fst (Market.process_market_data (H := exact_float) disjoint_days market_start) = Ret []
  /\ fst run = Ret tt
  /\ files (Market.fs (snd run)) !! "/repo/temp_data/ethereum_market_data.csv"
     = Some {| header := ["date"; "price"; "volume"]; lines := [] |}
  /\ (forall msg, ~ In (Market.Log WARNING msg) (Market.trace (snd run)))
  /\ (forall hw root filename (w : OnChain.world),
        OnChain.save_to_csv (H := exact_float) hw root [] filename w
        = (Ret tt, OnChain.after w [OnChain.Log WARNING [Txt "No data to save."]])).
Proof.
  intros run. split; [reflexivity|]. split; [reflexivity|]. split; [|split].
  - subst run. rewrite (@market_save_empty exact_float) by reflexivity.
    cbn [snd Market.fs files]. apply lookup_insert_eq.
  - intros msg Hin. subst run.
    rewrite (@market_save_empty exact_float) in Hin by reflexivity.
    cbn in Hin. destruct Hin as [Hin|[Hin|[]]]; discriminate Hin.
  - intros. apply onchain_save_empty.
Qed.

End WriterFacts.

(** * More on the market fetcher: the shape of every call *)
Module FetchShape.
Import Market FetchFacts.

Section Shape.
Context `{PyFloat}.
Variable server : request -> nat -> reply.

(** With [r] turns left after this one and the last turn numbered
    [mr], the loop stops at the first reply that is not retryable, or
    at the last turn, and that reply decides the outcome. *)
Lemma attempts_decided u p mr r : forall a (w : world),
  a + Z.of_nat r = mr ->
  let q := mkRequest u p 10 in
  let reply j := server q (length (gets (trace w)) + j)%nat in
  exists k new,
    (k <= r)%nat
    /\ (forall j, (j < k)%nat -> retryable (reply j) = true)
    /\ (k = r \/ retryable (reply k) = false)
    /\ attempts server u p mr (S r) a w = (outcome_of (reply k), after w new)
    /\ net new = retry_pattern q k ++ [HttpGet q].
Proof.
  induction r as [|r IH]; intros a w Ha q reply.
  - destruct (attempts_stop server u p mr 0 a w) as (last & Hrun & Hnet); [right; lia|].
    exists 0%nat, last. split; [lia|]. split; [intros j Hj; lia|]. split; [now left|].
    unfold reply. rewrite Nat.add_0_r. split; [exact Hrun|exact Hnet].
  - assert (Hr0 : reply 0%nat = server q (length (gets (trace w))))
      by (unfold reply; now rewrite Nat.add_0_r).
    destruct (retryable (reply 0%nat)) eqn:H0.
    + destruct (attempts_go server u p mr (S r) a w) as (mid & Hstep & Hnet & Hgets);
        [fold q; now rewrite <- Hr0|lia|]. fold q in Hnet, Hgets.
      destruct (IH (a + 1) (after w mid) ltac:(lia)) as (k & new & Hk & Hre & Hlast & Hrun & Hn).
      assert (Hshift : forall j,
                 server q (length (gets (trace (after w mid))) + j)%nat = reply (S j)).
      { intros j. unfold reply. cbn [after trace]. rewrite gets_app, length_app, Hgets.
        cbn [length]. f_equal. lia. }
      exists (S k), (mid ++ new). split; [lia|]. split; [|split; [|split]].
      * intros [|j] Hj; [exact H0|]. rewrite <- Hshift. apply Hre. lia.
      * destruct Hlast as [->|Hlast]; [now left|right]. now rewrite <- Hshift.
      * rewrite Hstep. fold q in Hrun. rewrite Hrun, Hshift, after_after. reflexivity.
      * fold q in Hn. rewrite net_app, Hnet, Hn, retry_pattern_S. reflexivity.
    + destruct (attempts_stop server u p mr (S r) a w) as (last & Hrun & Hnet);
        [left; fold q; now rewrite <- Hr0|].
      fold q in Hrun, Hnet. rewrite <- Hr0 in Hrun.
      exists 0%nat, last. split; [lia|]. split; [intros j Hj; lia|].
      split; [now right|]. split; [exact Hrun|exact Hnet].
Qed.

Lemma gets_net (l : list event) : gets (net l) = gets l.
Proof.
  unfold gets, net. induction l as [|e l IH]; [reflexivity|].
  destruct e; cbn; rewrite ?IH; reflexivity.
Qed.

Lemma sleeps_net (l : list event) : sleeps (net l) = sleeps l.
Proof.
  unfold sleeps, net. induction l as [|e l IH]; [reflexivity|].
  destruct e; cbn; rewrite ?IH; reflexivity.
Qed.

Lemma gets_pattern q k : gets (retry_pattern q k ++ [HttpGet q]) = repeat (HttpGet q) (S k).
Proof.
  induction k as [|k IH]; [reflexivity|].
  rewrite retry_pattern_S, <- app_assoc, gets_app, IH. reflexivity.
Qed.

Lemma sleeps_pattern q k : sleeps (retry_pattern q k ++ [HttpGet q]) = repeat (Sleep 5) k.
Proof.
  unfold sleeps. rewrite List.filter_app. fold (sleeps (retry_pattern q k)).
  rewrite sleeps_retry_pattern. cbn. apply app_nil_r.
Qed.

(** X1: for [max_retries >= 1] and any server, the call is decided by
    one reply, number [k] with [k < max_retries]: all replies before it
    were retryable (a 429, no response, or a response without an error
    status whose body is not JSON), and it is either not retryable or
    the last one allowed.  The call returns what that reply's body
    decodes to or raises that reply's error, after [k] rounds of
    request and 5 s wait and one final request. *)
Theorem fetch_decided_by_one_reply coin_id currency days max_retries (w : world) :
  1 <= max_retries ->
  let q := chart_request currency days in
  let reply j := server q (length (gets (trace w)) + j)%nat in
  exists k new,
    Z.of_nat k < max_retries
    /\ (forall j, (j < k)%nat -> retryable (reply j) = true)
    /\ (Z.of_nat k = max_retries - 1 \/ retryable (reply k) = false)
    /\ fetch_market_data server coin_id currency days max_retries w
       = (outcome_of (reply k), after w (fetch_banner coin_id currency days :: new))
    /\ net new = retry_pattern q k ++ [HttpGet q].
Proof.
  intros Hmr q reply. rewrite fetch_unfold. fold q.
  replace (Z.to_nat max_retries) with (S (Z.to_nat max_retries - 1)) by lia.
  destruct (attempts_decided (url q) (params q) max_retries (Z.to_nat max_retries - 1) 1
              (after w [fetch_banner coin_id currency days]) ltac:(lia))
    as (k & new & Hk & Hre & Hlast & Hrun & Hnet).
  rewrite banner_gets in Hre, Hlast, Hrun.
  exists k, new. split; [lia|]. split; [exact Hre|]. split; [|split].
  - destruct Hlast as [->|Hlast]; [left; lia|now right].
  - rewrite Hrun, after_after. reflexivity.
  - exact Hnet.
Qed.

(** The replies on which the call returns [None]. *)
Lemma outcome_none (rep : reply) :
  outcome_of rep = Ret PyNone <-> exists st, rep = Null st /\ is_error_status st = false.
Proof.
  split.
  - destruct rep as [st body| |st|st t|st]; cbn [outcome_of];
      try destruct (is_error_status st) eqn:Es; try discriminate.
    intros _. now exists st.
  - intros (st & -> & Hok). cbn [outcome_of]. now rewrite Hok.
Qed.

(** X2: for [max_retries >= 1] and any server, the call sends between
    1 and [max_retries] requests, all of them the constant
    [chart_request]; it waits once less often than it asks, 5 seconds
    each time; it leaves the file system alone; and it returns [None]
    exactly when the last reply it received is a response without an
    error status whose body is the JSON value [null]. *)
Theorem fetch_effort_bounded coin_id currency days max_retries (w : world) :
  1 <= max_retries ->
  let reply j := server (chart_request currency days) (length (gets (trace w)) + j)%nat in
  let run := fetch_market_data server coin_id currency days max_retries w in
  exists n,
    (1 <= n)%nat /\ Z.of_nat n <= max_retries
    /\ (fst run = Ret PyNone
        <-> exists st, reply (n - 1)%nat = Null st /\ is_error_status st = false)
    /\ gets (trace (snd run))
       = gets (trace w) ++ repeat (HttpGet (chart_request currency days)) n
    /\ sleeps (trace (snd run)) = sleeps (trace w) ++ repeat (Sleep 5) (n - 1)
    /\ fs (snd run) = fs w.
Proof.
  intros Hmr reply run. subst run. rewrite fetch_unfold.
  replace (Z.to_nat max_retries) with (S (Z.to_nat max_retries - 1)) by lia.
  set (q := chart_request currency days) in *.
  destruct (attempts_decided (url q) (params q) max_retries (Z.to_nat max_retries - 1) 1
              (after w [fetch_banner coin_id currency days]) ltac:(lia))
    as (k & new & Hk & _ & _ & Hrun & Hnet).
  change (mkRequest (url q) (params q) 10) with q in Hrun, Hnet.
  rewrite banner_gets in Hrun. fold (reply k) in Hrun.
  rewrite Hrun. cbn [fst snd after trace fs].
  exists (S k). split; [lia|]. split; [lia|]. split; [|split; [|split]].
  - replace (S k - 1)%nat with k by lia. apply outcome_none.
  - rewrite <- app_assoc, gets_app, gets_app. f_equal.
    change (gets [fetch_banner coin_id currency days]) with (@nil event). cbn [app].
    rewrite <- gets_net, Hnet, gets_pattern. reflexivity.
  - assert (Hs : forall a b, sleeps (a ++ b) = sleeps a ++ sleeps b)
      by (intros; apply List.filter_app).
    rewrite <- app_assoc, !Hs. f_equal.
    change (sleeps [fetch_banner coin_id currency days]) with (@nil event). cbn [app].
    rewrite <- sleeps_net, Hnet, sleeps_pattern.
    replace (S k - 1)%nat with k by lia. reflexivity.
  - reflexivity.
Qed.

End Shape.

(** A first reply whose body is not JSON, then the payload: the second
    reply decides the call, which returns the payload after two
    requests. *)
Lemma fetch_decided_by_one_reply_witness :
  1 <= 3
  /\ exists new,
      fetch_market_data (H := exact_float) garbled_once "ethereum" "usd" 7 3 market_start
        = (Ret (PyDict one_day), after market_start (fetch_banner "ethereum" "usd" 7 :: new))
      /\ length (gets new) = 2%nat.
Proof.
  split; [lia|].
  destruct (@fetch_decided_by_one_reply exact_float garbled_once "ethereum" "usd" 7 3
              market_start ltac:(lia)) as (k & new & Hk & Hre & Hlast & Hrun & Hnet).
  assert (Hk1 : k = 1%nat).
  { destruct k as [|[|k]]; [|reflexivity|].
    - destruct Hlast as [Hl|Hl]; [lia|discriminate Hl].
    - specialize (Hre 1%nat ltac:(lia)). discriminate Hre. }
  subst k. exists new. split; [exact Hrun|].
  rewrite <- gets_net, Hnet. reflexivity.
Defined.

(** Rate limited throughout, with three attempts allowed: three
    requests and two waits. *)
Lemma fetch_effort_bounded_witness :
  1 <= 3
  /\ exists n, (1 <= n)%nat /\ Z.of_nat n <= 3
     /\ fst (fetch_market_data (H := exact_float) limited_server "ethereum" "usd" 7 3
               market_start) <> Ret PyNone
     /\ sleeps (trace (snd (fetch_market_data (H := exact_float) limited_server
                              "ethereum" "usd" 7 3 market_start)))
        = repeat (Sleep 5) (n - 1).
Proof.
  split; [lia|].
  destruct (@fetch_effort_bounded exact_float limited_server "ethereum" "usd" 7 3
              market_start ltac:(lia)) as (n & Hn1 & Hn2 & Hnone & _ & Hsleeps & _).
  exists n. split; [exact Hn1|]. split; [exact Hn2|]. split; [|exact Hsleeps].
  intros Hret. apply Hnone in Hret. destruct Hret as (st & Hrep & _). discriminate Hrep.
Defined.

(** A first reply whose body is not JSON is waited out, and the second
    reply decides the call. *)
Example fetch_garbled_then_payload :
  exists new,
    fetch_market_data (H := exact_float) garbled_once "ethereum" "usd" 7 3 market_start
      = (Ret (PyDict one_day), after market_start new)
    /\ net new = retry_pattern (chart_request "usd" 7) 1 ++ [HttpGet (chart_request "usd" 7)].
Proof. eexists. split; reflexivity. Qed.

(** A body of [null] is returned as [None], at the first attempt. *)
Example fetch_null_body :
  fst (fetch_market_data (H := exact_float) (fun _ _ => Null 200) "ethereum" "usd" 7 3
         market_start) = Ret PyNone.
Proof. reflexivity. Qed.

End FetchShape.

(** * More on the market transformer *)
Module TransformOrder.
Import Market TransformFacts.


Lemma sorted_map {A B} (R : A -> A -> Prop) (R' : B -> B -> Prop) (f : A -> B) l :
  (forall x y, R x y -> R' (f x) (f y)) ->
  StronglySorted R l -> StronglySorted R' (List.map f l).
Proof.
  intros Hf. induction 1 as [|x l Hs IH Hall]; [constructor|].
  cbn [List.map]. constructor; [exact IH|].
  apply List.Forall_forall. intros y Hy. apply in_map_iff in Hy.
  destruct Hy as (a & <- & Ha). rewrite List.Forall_forall in Hall. auto.
Qed.

Section Order.
Context `{PyFloat} `{Pandas}.












(** X6: the transformer reads the keys [prices] and [total_volumes]
    only; a payload that differs in any other key (CoinGecko also sends
    [market_caps]) gives the same outcome and the same log. *)
Theorem process_reads_two_keys raw key (extra : series) (w : world) :
  key <> "prices" -> key <> "total_volumes" ->
  process_market_data (<[key := extra]> raw) w = process_market_data raw w.
Proof.
  intros Hp Hv. unfold process_market_data, get_series, series in *.
  rewrite !lookup_insert_ne by congruence. reflexivity.
Qed.


End Order.




Lemma process_reads_two_keys_witness :
  "market_caps" <> "prices" /\ "market_caps" <> "total_volumes"
  /\ process_market_data (H := exact_float)
       (<["market_caps" := [(1700000000000, NInt 7)]]> three_days) market_start
     = process_market_data three_days market_start.
Proof.
  assert (H1 : "market_caps" <> "prices") by discriminate.
  assert (H2 : "market_caps" <> "total_volumes") by discriminate.
  split; [exact H1|]. split; [exact H2|].
  exact (@process_reads_two_keys exact_float datetime64_ns three_days "market_caps"
           [(1700000000000, NInt 7)] market_start H1 H2).
Defined.


End TransformOrder.

(** * More on the two writers *)
Module WriterMore.

Section Writers.
Context `{PyFloat}.
Variable hw : disk.
Variable root : string.

Lemma point_cells_inj (a b : Market.MarketDataPoint) :
  Market.point_cells a = Market.point_cells b -> a = b.
Proof. destruct a, b. cbn. now intros [= -> -> ->]. Qed.

Lemma record_cells_inj (a b : OnChain.BlockData) :
  OnChain.record_cells a = OnChain.record_cells b -> a = b.
Proof.
  destruct a, b. cbn. intros [= -> -> Hn ->]. apply Nat2Z.inj in Hn. now subst.
Qed.

Lemma map_inj {A B} (f : A -> B) :
  (forall a b, f a = f b -> a = b) ->
  forall l l', List.map f l = List.map f l' -> l = l'.
Proof.
  intros Hf. induction l as [|a l IH]; intros [|b l'] E; try discriminate; [reflexivity|].
  cbn in E. injection E as E1 E2. f_equal; auto.
Qed.

(** The world the market writer leaves when the disk cooperates. *)
Lemma market_save_run df filename (w : Market.world) :
  let output_dir := path_join root "temp_data" in
  let output_path := path_join output_dir filename in
  can_mkdir hw output_dir = true -> can_write hw output_path = true ->
  Market.save_to_csv hw root df filename w
  = (Ret tt,
     {| Market.trace :=
          Market.trace w
          ++ [Market.Log INFO [Txt "Saving data to "; FStr output_path; Txt "..."];
              Market.Log INFO [Txt "Data saved successfully."]];
        Market.fs :=
          {| dirs := {[output_dir]} ∪ dirs (Market.fs w);
             files := <[output_path := {| header := ["date"; "price"; "volume"];
                                          lines := List.map Market.point_cells df |}]>
                        (files (Market.fs w));
             torn := torn (Market.fs w) ∖ {[output_path]} |} |}).
Proof.
  intros output_dir output_path Hdir Hfile.
  unfold Market.save_to_csv, Market.makedirs, Market.to_csv, Market.logger, Market.emit,
    try_except, mbind, M_bind, bind.
  fold output_dir. rewrite Hdir. cbv beta iota zeta. cbn [Market.trace Market.fs dirs files].
  fold output_path. rewrite Hfile. cbn. now rewrite <- app_assoc.
Qed.

(** X7: when the directory can be made and the file written, the
    market writer returns normally; the file at
    [<root>/temp_data/<filename>] then holds the header
    [date,price,volume] and one line per row of the frame, in order,
    replacing whatever the file held; the lines determine the frame;
    every other file is as it was. *)
Theorem market_save_writes_frame df filename (w : Market.world) :
  let output_dir := path_join root "temp_data" in
  let output_path := path_join output_dir filename in
  let run := Market.save_to_csv hw root df filename w in
  can_mkdir hw output_dir = true -> can_write hw output_path = true ->
  fst run = Ret tt
  /\ (exists table,
        files (Market.fs (snd run)) !! output_path = Some table
        /\ header table = ["date"; "price"; "volume"]
        /\ lines table = List.map Market.point_cells df
        /\ length (lines table) = length df
        /\ forall df', List.map Market.point_cells df' = lines table -> df' = df)
  /\ (forall p, p <> output_path ->
        files (Market.fs (snd run)) !! p = files (Market.fs w) !! p)
  /\ output_dir ∈ dirs (Market.fs (snd run)).
Proof.
  intros output_dir output_path run Hdir Hfile. subst run.
  rewrite market_save_run by assumption. fold output_dir output_path.
  cbn [fst snd Market.fs files dirs]. split; [reflexivity|]. split; [|split].
  - eexists. split; [apply lookup_insert_eq|]. cbn [header lines].
    split; [reflexivity|]. split; [reflexivity|]. split; [apply length_map|].
    intros df' E. now apply (map_inj _ point_cells_inj).
  - intros p Hp. now apply lookup_insert_ne.
  - set_solver.
Qed.

(** X9: a file name that starts with [/] is not placed under
    [temp_data]: [os.path.join] discards the directory, and the market
    writer writes the frame at that very path; the directory
    [<root>/temp_data] is made all the same, and every other file is as
    it was. *)
Theorem market_save_absolute_name df filename (w : Market.world) :
  starts_with_sep filename = true ->
  can_mkdir hw (path_join root "temp_data") = true -> can_write hw filename = true ->
  let run := Market.save_to_csv hw root df filename w in
  fst run = Ret tt
  /\ files (Market.fs (snd run)) !! filename
     = Some {| header := ["date"; "price"; "volume"];
               lines := List.map Market.point_cells df |}
  /\ path_join root "temp_data" ∈ dirs (Market.fs (snd run))
  /\ (forall p, p <> filename ->
        files (Market.fs (snd run)) !! p = files (Market.fs w) !! p).
Proof.
  intros Habs Hdir Hfile run. subst run.
  assert (Hpath : path_join (path_join root "temp_data") filename = filename)
    by (unfold path_join at 1; now rewrite Habs).
  rewrite market_save_run by (rewrite ?Hpath; assumption).
  rewrite Hpath. cbn [fst snd Market.fs files dirs]. split; [reflexivity|].
  split; [apply lookup_insert_eq|]. split; [set_solver|].
  intros p Hp. now apply lookup_insert_ne.
Qed.

(** The world the on-chain writer leaves for a non-empty list when the
    disk cooperates. *)
Lemma onchain_save_run data filename (w : OnChain.world) :
  let output_dir := path_join root "temp_data" in
  let output_path := path_join output_dir filename in
  data <> [] ->
  can_mkdir hw output_dir = true -> can_write hw output_path = true ->
  OnChain.save_to_csv hw root data filename w
  = (Ret tt,
     {| OnChain.trace :=
          OnChain.trace w
          ++ [OnChain.Log INFO [Txt "Saving "; FNat (length data); Txt " records to ";
                                FStr output_path; Txt "..."];
              OnChain.Log INFO [Txt "On-chain data saved successfully."]];
        OnChain.fs :=
          {| dirs := {[output_dir]} ∪ dirs (OnChain.fs w);
             files := <[output_path :=
                          {| header := ["block_number"; "timestamp"; "transaction_count";
                                        "base_fee_per_gas_gwei"];
                             lines := List.map OnChain.record_cells data |}]>
                        (files (OnChain.fs w));
             torn := torn (OnChain.fs w) ∖ {[output_path]} |} |}).
Proof.
  intros output_dir output_path Hne Hdir Hfile.
  unfold OnChain.save_to_csv. destruct data as [|r data]; [congruence|]. cbn [is_empty].
  unfold OnChain.makedirs, OnChain.to_csv, OnChain.logger, OnChain.emit,
    try_except, mbind, M_bind, bind.
  fold output_dir. rewrite Hdir. cbv beta iota zeta.
  cbn [OnChain.trace OnChain.fs dirs files].
  fold output_path. rewrite Hfile. cbn. now rewrite <- app_assoc.
Qed.

(** X10: given a non-empty list and a cooperating disk, the on-chain
    writer returns normally; the file at [<root>/temp_data/<filename>]
    then holds the header
    [block_number,timestamp,transaction_count,base_fee_per_gas_gwei]
    and one line per record, in order; the lines determine the
    records; every other file is as it was. *)
Theorem onchain_save_writes_records data filename (w : OnChain.world) :
  let output_dir := path_join root "temp_data" in
  let output_path := path_join output_dir filename in
  let run := OnChain.save_to_csv hw root data filename w in
  data <> [] ->
  can_mkdir hw output_dir = true -> can_write hw output_path = true ->
  fst run = Ret tt
  /\ (exists table,
        files (OnChain.fs (snd run)) !! output_path = Some table
        /\ header table = ["block_number"; "timestamp"; "transaction_count";
                           "base_fee_per_gas_gwei"]
        /\ lines table = List.map OnChain.record_cells data
        /\ length (lines table) = length data
        /\ forall data', List.map OnChain.record_cells data' = lines table -> data' = data)
  /\ (forall p, p <> output_path ->
        files (OnChain.fs (snd run)) !! p = files (OnChain.fs w) !! p).
Proof.
  intros output_dir output_path run Hne Hdir Hfile. subst run.
  rewrite onchain_save_run by assumption. fold output_dir output_path.
  cbn [fst snd OnChain.fs files dirs]. split; [reflexivity|]. split.
  - eexists. split; [apply lookup_insert_eq|]. cbn [header lines].
    split; [reflexivity|]. split; [reflexivity|]. split; [apply length_map|].
    intros data' E. now apply (map_inj _ record_cells_inj).
  - intros p Hp. now apply lookup_insert_ne.
Qed.

End Writers.

Lemma market_save_writes_frame_witness :
  can_mkdir any_disk (path_join "/repo" "temp_data") = true
  /\ can_write any_disk (path_join (path_join "/repo" "temp_data") "x.csv") = true
  /\ exists table,
      files (Market.fs (snd (Market.save_to_csv any_disk "/repo" one_row "x.csv"
                               market_start))) !! "/repo/temp_data/x.csv" = Some table
      /\ length (lines table) = 1%nat.
Proof.
  split; [reflexivity|]. split; [reflexivity|].
  destruct (@market_save_writes_frame exact_float any_disk "/repo" one_row "x.csv"
              market_start eq_refl eq_refl) as (_ & (table & Hfile & _ & _ & Hlen & _) & _).
  exists table. split; [exact Hfile|exact Hlen].
Defined.

Lemma market_save_absolute_name_witness :
  starts_with_sep "/tmp/x.csv" = true
  /\ files (Market.fs (snd (Market.save_to_csv any_disk "/repo" one_row "/tmp/x.csv"
                              market_start))) !! "/tmp/x.csv"
     = Some {| header := ["date"; "price"; "volume"];
               lines := List.map Market.point_cells one_row |}
  /\ "/repo/temp_data" ∈ dirs (Market.fs (snd (Market.save_to_csv any_disk "/repo" one_row
                                                 "/tmp/x.csv" market_start))).
Proof.
  split; [reflexivity|].
  destruct (@market_save_absolute_name exact_float any_disk "/repo" one_row "/tmp/x.csv"
              market_start eq_refl eq_refl eq_refl) as (_ & Hfile & Hdir & _).
  split; [exact Hfile|exact Hdir].
Defined.

(** On a disk that refuses the write the market writer logs the error
    and raises it; the directory is there, and what the target holds is
    not known. *)
Example market_save_full_disk :
  let run := Market.save_to_csv (H := exact_float) full_disk "/repo" one_row "x.csv"
               market_start in
  fst run = Exc OSError
  /\ last (Market.trace (snd run))
     = Some (Market.Log ERROR [Txt "Error saving to CSV: "; FExn OSError])
  /\ "/repo/temp_data" ∈ dirs (Market.fs (snd run))
  /\ "/repo/temp_data/x.csv" ∈ torn (Market.fs (snd run))
  /\ files (Market.fs (snd run)) !! "/repo/temp_data/x.csv" = None.
Proof.
  cbv zeta. split; [reflexivity|]. split; [reflexivity|].
  split; [|split; [|reflexivity]]; vm_compute; set_solver.
Qed.

Lemma onchain_save_writes_records_witness :
  one_record <> []
  /\ exists table,
      files (OnChain.fs (snd (OnChain.save_to_csv any_disk "/repo" one_record "x.csv"
                                onchain_start))) !! "/repo/temp_data/x.csv" = Some table
      /\ length (lines table) = 1%nat.
Proof.
  assert (Hne : one_record <> []) by discriminate.
  split; [exact Hne|].
  destruct (@onchain_save_writes_records exact_float any_disk "/repo" one_record "x.csv"
              onchain_start Hne eq_refl eq_refl) as (_ & (table & Hfile & _ & _ & Hlen & _) & _).
  exists table. split; [exact Hfile|exact Hlen].
Defined.

End WriterMore.

(** * More on the block extractor *)
Module ExtractMore.
Import OnChain ExtractFacts.

Lemma div20_succ (a : nat) :
  (S a / 20 = a / 20 + (if S a mod 20 =? 0 then 1 else 0))%nat.
Proof.
  destruct (Nat.eqb_spec (S a mod 20) 0) as [E|E].
  - pose proof (Nat.div_mod_eq (S a) 20). pose proof (Nat.div_mod_eq a 20).
    pose proof (Nat.mod_upper_bound a 20 ltac:(lia)). lia.
  - pose proof (Nat.div_mod_eq (S a) 20). pose proof (Nat.div_mod_eq a 20).
    pose proof (Nat.mod_upper_bound a 20 ltac:(lia)).
    pose proof (Nat.mod_upper_bound (S a) 20 ltac:(lia)). lia.
Qed.

(** Closes a goal about the events of one turn once the run has been
    reduced to its final world. *)
Ltac turn_counted :=
  rewrite ?app_nil_r; eexists; split;
  [ unfold after; cbn [trace fs float]; rewrite <- ?app_assoc; reflexivity
  | repeat split; cbn; rewrite ?length_app; cbn; rewrite ?Nat.add_1_r; reflexivity ].

Section Accounting.
Context `{PyFloat}.

(** One turn, with its log lines counted. *)
Lemma for_blocks_turn_logs (w3 : Web3) num_blocks n rest data (w : world) :
  exists evs,
    for_blocks w3 num_blocks (n :: rest) data w
      = for_blocks w3 num_blocks rest
          (data ++ match visit w3 n with Some r => [r] | None => [] end) (after w evs)
    /\ attempted evs = [n]
    /\ length (List.filter is_error_log evs)
       = match visit w3 n with Some _ => 0%nat | None => 1%nat end
    /\ length (List.filter is_info_log evs)
       = match visit w3 n with
         | Some _ => (if S (length data) mod 20 =? 0 then 1 else 0)%nat
         | None => 0%nat
         end
    /\ existsb wants_bodies evs = false.
Proof.
  cbn [for_blocks].
  unfold visit, record_of, gwei, try_except, eth_get_block, fromtimestamp_utc,
    from_wei_gwei, logger, emit, raise, ret, mbind, M_bind, bind, mret.
  cbv beta iota zeta.
  destruct (get_block w3 n) as [b|]; cbn [option_bind]; cbv beta iota zeta;
    [|turn_counted].
  destruct (in_datetime_range (timestamp b)); cbv beta iota zeta; [|turn_counted].
  destruct (baseFeePerGas b) as [fee|]; cbn [option_bind]; cbv beta iota zeta.
  - destruct (fee =? 0); cbn [option_bind]; cbv beta iota zeta.
    + rewrite length_app. cbn [length]. rewrite Nat.add_1_r.
      destruct (_ =? 0)%nat; cbv beta iota zeta; turn_counted.
    + destruct ((fee <? 1) || (2 ^ 256 - 1 <? fee)); cbn [option_bind];
        cbv beta iota zeta; [turn_counted|].
      rewrite length_app. cbn [length]. rewrite Nat.add_1_r.
      destruct (_ =? 0)%nat; cbv beta iota zeta; turn_counted.
  - unfold option_ret. cbn [option_bind]. cbv beta iota zeta.
    rewrite length_app. cbn [length]. rewrite Nat.add_1_r.
    destruct (_ =? 0)%nat; cbv beta iota zeta; turn_counted.
Qed.

Lemma for_blocks_logs (w3 : Web3) num_blocks nums : forall data (w : world),
  exists evs,
    for_blocks w3 num_blocks nums data w
      = (Ret (data ++ omap (visit w3) nums), after w evs)
    /\ attempted evs = nums
    /\ (length (List.filter is_error_log evs) + length (omap (visit w3) nums)
        = length nums)%nat
    /\ (length (List.filter is_info_log evs) + length data / 20
        = (length data + length (omap (visit w3) nums)) / 20)%nat
    /\ existsb wants_bodies evs = false.
Proof.
  induction nums as [|n rest IH]; intros data w.
  - exists []. cbn [for_blocks omap list_omap]. unfold ret, after. rewrite !app_nil_r.
    destruct w. cbn. rewrite Nat.add_0_r. repeat split.
  - destruct (for_blocks_turn_logs w3 num_blocks n rest data w)
      as (e1 & E1 & A1 & Herr1 & Hinfo1 & Hft1).
    destruct (IH (data ++ match visit w3 n with Some r => [r] | None => [] end)
                 (after w e1)) as (e2 & E2 & A2 & Herr2 & Hinfo2 & Hft2).
    exists (e1 ++ e2). rewrite E1, E2, after_more, attempted_app, A1, A2.
    rewrite !List.filter_app, !length_app, existsb_app, Hft1, Hft2, Herr1, Hinfo1.
    cbn [omap list_omap]. fold (omap (visit w3) rest).
    destruct (visit w3 n) as [r|].
    + rewrite length_app in Hinfo2. cbn [length] in Hinfo2 |- *.
      rewrite <- app_assoc. cbn [app].
      split; [reflexivity|]. split; [reflexivity|]. split; [lia|]. split; [|reflexivity].
      pose proof (div20_succ (length data)) as Hd.
      replace (length data + S (length (omap (visit w3) rest)))%nat
        with (length data + 1 + length (omap (visit w3) rest))%nat by lia.
      rewrite <- Hinfo2, Nat.add_1_r, Hd.
      destruct (S (length data) mod 20 =? 0)%nat; lia.
    + rewrite app_nil_r in *. cbn [length].
      split; [reflexivity|]. split; [reflexivity|]. split; [lia|]. split; [lia|reflexivity].
Qed.

(** X12: with [num_blocks <= 0] the range of the loop is empty: the
    extractor asks the node for no block and returns the empty list. *)
Theorem extract_nothing_asked (w3 : Web3) num_blocks (w : world) :
  num_blocks <= 0 ->
  exists evs,
    extract_block_data w3 num_blocks w = (Ret [], after w evs)
    /\ attempted evs = [].
Proof.
  intros Hn. destruct (extract_run w3 num_blocks w) as (evs & E & A).
  assert (Hw : window (block_number w3) num_blocks = []).
  { unfold window, range_down. replace (Z.to_nat _) with 0%nat by lia. reflexivity. }
  rewrite Hw in E, A. exists evs. split; assumption.
Qed.

(** X13: when every call in the window returns a block, nothing is
    missing: the returned records bear exactly the numbers
    [H, H-1, ..., max (H-N+1) 0] in that order, and for [H >= 0] and
    [N >= 1] there are [min N (H+1)] of them. *)
Theorem extract_complete (w3 : Web3) num_blocks (w : world) :
  (forall n, In n (window (block_number w3) num_blocks) -> delivered w3 n = true) ->
  exists data evs,
    extract_block_data w3 num_blocks w = (Ret data, after w evs)
    /\ List.map bd_block_number data = window (block_number w3) num_blocks
    /\ (0 <= block_number w3 -> 1 <= num_blocks ->
        Z.of_nat (length data) = Z.min num_blocks (block_number w3 + 1)).
Proof.
  intros Hall. destruct (extract_run w3 num_blocks w) as (evs & E & A).
  exists (omap (visit w3) (window (block_number w3) num_blocks)), evs.
  split; [exact E|].
  assert (Hnum : List.map bd_block_number
                   (omap (visit w3) (window (block_number w3) num_blocks))
                 = window (block_number w3) num_blocks).
  { revert Hall. generalize (window (block_number w3) num_blocks). intros nums Hall.
    induction nums as [|n rest IH]; [reflexivity|].
    cbn [omap list_omap]. fold (omap (visit w3) rest).
    pose proof (Hall n ltac:(now left)) as Hn. unfold delivered in Hn.
    destruct (get_block w3 n) as [b|] eqn:Hb; [|discriminate].
    destruct (visit_delivered w3 n b Hb) as (r & Hv & _). rewrite Hv.
    cbn [List.map]. rewrite (visit_number w3 n r Hv). f_equal.
    apply IH. intros m Hm. apply Hall. now right. }
  split; [exact Hnum|]. intros Hhead Hn.
  apply (f_equal (@length _)) in Hnum. rewrite length_map in Hnum. rewrite Hnum.
  unfold window. rewrite length_range_down. lia.
Qed.

(** X14: what a run logs and asks.  Every call asks for the block
    without transaction bodies; the number of error lines is the number
    of blocks asked that gave no record; and beside its two opening
    lines the run logs one progress line per twenty records. *)
Theorem extract_log_accounting (w3 : Web3) num_blocks (w : world) :
  exists data evs,
    extract_block_data w3 num_blocks w = (Ret data, after w evs)
    /\ existsb wants_bodies evs = false
    /\ (length (List.filter is_error_log evs) + length data
        = length (window (block_number w3) num_blocks))%nat
    /\ length (List.filter is_info_log evs) = (2 + length data / 20)%nat.
Proof.
  unfold extract_block_data, logger, emit, mbind, M_bind, bind. cbv beta iota zeta.
  replace (if block_number w3 - num_blocks + 1 <? 0 then 0
           else block_number w3 - num_blocks + 1)
    with (Z.max (block_number w3 - num_blocks + 1) 0)
    by (destruct (Z.ltb_spec (block_number w3 - num_blocks + 1) 0); lia).
  fold (window (block_number w3) num_blocks).
  match goal with
  | |- context [for_blocks _ _ _ _ ?w0] =>
      destruct (for_blocks_logs w3 num_blocks (window (block_number w3) num_blocks) [] w0)
        as (evs & E & A & Herr & Hinfo & Hft)
  end.
  rewrite E. cbn [app length] in *. do 2 eexists. split.
  - unfold after. cbn [trace fs]. rewrite <- !app_assoc. reflexivity.
  - cbn [app existsb wants_bodies orb List.filter is_error_log is_info_log length].
    split; [exact Hft|]. split; [exact Herr|].
    change (0 / 20)%nat with 0%nat in Hinfo. rewrite Nat.add_0_r in Hinfo.
    cbn [Nat.add] in Hinfo. rewrite <- Hinfo. reflexivity.
Qed.

End Accounting.

Lemma extract_nothing_asked_witness :
  0 <= 0
  /\ exists evs,
      extract_block_data (H := exact_float) short_chain 0 onchain_start
        = (Ret [], after onchain_start evs)
      /\ attempted evs = [].
Proof.
  split; [lia|].
  apply (@extract_nothing_asked exact_float short_chain 0 onchain_start). lia.
Defined.

Lemma extract_complete_witness :
  (forall n, In n (window (block_number short_chain) 100) -> delivered short_chain n = true)
  /\ exists data evs,
      extract_block_data (H := exact_float) short_chain 100 onchain_start
        = (Ret data, after onchain_start evs)
      /\ Z.of_nat (length data) = 51.
Proof.
  assert (Hall : forall n, In n (window (block_number short_chain) 100) ->
                           delivered short_chain n = true).
  { apply forallb_forall. vm_compute. reflexivity. }
  split; [exact Hall|].
  destruct (@extract_complete exact_float short_chain 100 onchain_start Hall)
    as (data & evs & Hrun & _ & Hlen).
  exists data, evs. split; [exact Hrun|]. apply Hlen; cbn; lia.
Defined.

End ExtractMore.

(** * The market orchestrator *)
Module MarketMain.
Import Market FetchFacts TransformFacts.

Section Main.
Context `{PyFloat} `{Pandas}.
Variable server : request -> nat -> reply.
Variable hw : disk.
Variable root : string.

Lemma fetch_after coin_id currency days mr (w : world) :
  exists res new,
    fetch_market_data server coin_id currency days mr w = (res, after w new)
    /\ asks_only (chart_request currency days) new.
Proof.
  rewrite fetch_unfold.
  destruct (attempts_world server (url (chart_request currency days))
              (params (chart_request currency days)) mr (Z.to_nat mr) 1
              (after w [fetch_banner coin_id currency days])
              (after w [fetch_banner coin_id currency days]) eq_refl)
    as (res & new & E & _ & Hq).
  exists res, (fetch_banner coin_id currency days :: new).
  rewrite E, after_after. split; [reflexivity|].
  intros r [Hr|Hr]; [discriminate Hr|now apply Hq].
Qed.

Lemma process_fetched_after raw (w : world) :
  exists res new, process_fetched raw w = (res, after w new)
                  /\ forall r, ~ In (HttpGet r) new.
Proof.
  destruct raw as [|d|t].
  - do 2 eexists. split.
    + unfold process_fetched, try_except, logger, emit, raise, mbind, M_bind, bind, after.
      cbn. rewrite <- app_assoc. reflexivity.
    + intros r [Hr|[Hr|[]]]; discriminate Hr.
  - cbn [process_fetched]. unfold process_market_data, with_dates, try_except, logger, emit,
      raise, ret, mbind, M_bind, bind.
    destruct (is_empty (get_series d "prices") || is_empty (get_series d "total_volumes")).
    + do 2 eexists. split; [unfold after; cbn; rewrite <- app_assoc; reflexivity|].
      intros r [Hr|[Hr|[]]]; discriminate Hr.
    + destruct (forallb datetime64_holds _).
      * do 2 eexists. split; [unfold after; cbn; reflexivity|].
        intros r [Hr|[]]; discriminate Hr.
      * do 2 eexists. split; [unfold after; cbn; rewrite <- app_assoc; reflexivity|].
        intros r [Hr|[Hr|[]]]; discriminate Hr.
  - do 2 eexists. split.
    + unfold process_fetched, try_except, logger, emit, raise, mbind, M_bind, bind, after.
      cbn. rewrite <- app_assoc. reflexivity.
    + intros r [Hr|[Hr|[]]]; discriminate Hr.
Qed.

(** X15: the market [main] never raises: whatever the server and the
    disk do, it returns normally, and the last line it logs is either
    the success line or the failure line with the exception that ended
    the run. *)
Theorem market_main_returns (w : world) :
  exists w',
    main server hw root w = (Ret tt, w')
    /\ (last (trace w') = Some success_line
        \/ exists e, last (trace w') = Some (failure_line e)).
Proof.
  unfold main, try_except. unfold mbind at 1. unfold M_bind. unfold bind at 1.
  unfold logger at 1. unfold emit at 1.
  unfold mbind at 1. unfold M_bind. unfold bind at 1.
  destruct (fetch_market_data _ _ _ _ _ _) as [[raw|e] w1];
    [|eexists; split; [reflexivity|right; exists e; cbn; apply last_snoc]].
  unfold mbind at 1. unfold M_bind. unfold bind at 1.
  destruct (process_fetched raw w1) as [[df|e] w2];
    [|eexists; split; [reflexivity|right; exists e; cbn; apply last_snoc]].
  unfold mbind at 1. unfold M_bind. unfold bind at 1.
  unfold logger at 1. unfold emit at 1.
  unfold mbind at 1. unfold M_bind. unfold bind at 1.
  destruct (save_to_csv _ _ _ _ _) as [[[]|e] w3];
    [|eexists; split; [reflexivity|right; exists e; cbn; apply last_snoc]].
  eexists. split; [reflexivity|]. left. cbn. apply last_snoc.
Qed.

(** [main] stage by stage. *)
Lemma market_main_stages (w : world) :
  main server hw root w =
  match fetch_market_data server "ethereum" "usd" 7 3 (after w [market_start_line]) with
  | (Exc e, w1) => (Ret tt, after w1 [failure_line e])
  | (Ret raw, w1) =>
    match process_fetched raw w1 with
    | (Exc e, w2) => (Ret tt, after w2 [failure_line e])
    | (Ret df, w2) =>
      match save_to_csv hw root df "ethereum_market_data.csv"
              (after w2 [generated_line (length df)]) with
      | (Exc e, w3) => (Ret tt, after w3 [failure_line e])
      | (Ret _, w3) => (Ret tt, after w3 [success_line])
      end
    end
  end.
Proof.
  unfold main, try_except. unfold mbind at 1. unfold M_bind. unfold bind at 1.
  unfold logger at 1. unfold emit at 1.
  unfold mbind at 1. unfold M_bind. unfold bind at 1.
  change {| trace := trace w ++ [Log INFO [Txt "Starting market data extraction pipeline..."]];
            fs := fs w |} with (after w [market_start_line]).
  destruct (fetch_market_data _ _ _ _ _ _) as [[raw|e] w1]; [|reflexivity].
  unfold mbind at 1. unfold M_bind. unfold bind at 1.
  destruct (process_fetched raw w1) as [[df|e] w2]; [|reflexivity].
  unfold mbind at 1. unfold M_bind. unfold bind at 1.
  unfold logger at 1. unfold emit at 1.
  unfold mbind at 1. unfold M_bind. unfold bind at 1.
  change {| trace := trace w2 ++ [Log INFO [Txt "Generated DataFrame with "; FNat (length df);
                                            Txt " records for "; FStr "ethereum"; Txt "."]];
            fs := fs w2 |} with (after w2 [generated_line (length df)]).
  change (String.append "ethereum" "_market_data.csv") with "ethereum_market_data.csv".
  destruct (save_to_csv _ _ _ _ _) as [[[]|e] w3]; reflexivity.
Qed.



Lemma process_empty_run d (w : world) :
  get_series d "prices" = [] \/ get_series d "total_volumes" = [] ->
  exists e new, process_market_data d w = (Exc e, after w new).
Proof.
  intros Hempty.
  assert (Hb : is_empty (get_series d "prices")
               || is_empty (get_series d "total_volumes") = true).
  { destruct Hempty as [E|E]; rewrite E; cbn; [reflexivity|apply orb_true_r]. }
  unfold process_market_data, try_except, mbind, M_bind, bind, logger, emit.
  rewrite Hb. unfold raise, after. cbn. do 2 eexists. now rewrite <- app_assoc.
Qed.

(** X17: [main] writes only what a validated payload gives it: when
    none of the three replies it may receive is a non-error response
    with both series non-empty, it returns normally, ends with the
    failure line, and the file system is as it was. *)
Theorem market_main_needs_payload (w : world) :
  (forall k st d,
      (k < 3)%nat ->
      server (chart_request "usd" 7) (length (gets (trace w)) + k)%nat = Response st d ->
      is_error_status st = false ->
      get_series d "prices" = [] \/ get_series d "total_volumes" = []) ->
  exists w' e,
    main server hw root w = (Ret tt, w')
    /\ last (trace w') = Some (failure_line e)
    /\ fs w' = fs w.
Proof.
  intros Hbad. rewrite market_main_stages, fetch_unfold.
  set (q := chart_request "usd" 7) in *.
  set (w0 := after (after w [market_start_line]) [fetch_banner "ethereum" "usd" 7]).
  assert (Hlen : length (gets (trace w0)) = length (gets (trace w)))
    by (unfold w0; cbn [after trace]; rewrite !gets_app, !length_app; cbn; lia).
  change (Z.to_nat 3) with 3%nat.
  destruct (FetchShape.attempts_decided server (url q) (params q) 3 2 1 w0 eq_refl)
    as (k & new & Hk & _ & _ & Hrun & _).
  change (mkRequest (url q) (params q) 10) with q in Hrun.
  rewrite Hlen in Hrun. rewrite Hrun.
  destruct (server q (length (gets (trace w)) + k)%nat) as [st d| |st|st t|st] eqn:Hrep;
    cbn [outcome_of].
  - destruct (is_error_status st) eqn:Hst.
    + do 2 eexists. split; [reflexivity|]. split; [cbn; apply last_snoc|reflexivity].
    + cbn [process_fetched].
      destruct (process_empty_run d (after w0 new)) as (e & evs & Hproc).
      { apply (Hbad k st d); [lia|exact Hrep|exact Hst]. }
      rewrite Hproc. do 2 eexists. split; [reflexivity|].
      split; [cbn; apply last_snoc|reflexivity].
  - do 2 eexists. split; [reflexivity|]. split; [cbn; apply last_snoc|reflexivity].
  - destruct (is_error_status st); do 2 eexists;
      (split; [reflexivity|]); (split; [cbn; apply last_snoc|reflexivity]).
  - destruct (is_error_status st); do 2 eexists;
      (split; [reflexivity|]); (split; [cbn; apply last_snoc|reflexivity]).
  - destruct (is_error_status st); do 2 eexists;
      (split; [reflexivity|]); (split; [cbn; apply last_snoc|reflexivity]).
Qed.

End Main.


(** Rate limited throughout: three requests, no file. *)
Lemma market_main_needs_payload_witness :
  exists w' e,
    main (H := exact_float) limited_server any_disk "/repo" market_start = (Ret tt, w')
    /\ last (trace w') = Some (failure_line e)
    /\ fs w' = empty_fs.
Proof.
  apply (@market_main_needs_payload exact_float datetime64_ns limited_server any_disk "/repo"
           market_start).
  intros k st d _ Hrep Hst. cbn in Hrep. injection Hrep as <- _. discriminate Hst.
Defined.

End MarketMain.

(** * The connector and the on-chain orchestrator *)
Module OnChainMain.
Import OnChain ExtractFacts.

Section Main.
Context `{PyFloat}.
Variable hw : disk.
Variable root : string.
Variable environ : gmap string string.
Variable node_at : string -> option (Web3 * string).

Lemma connect_unset (w : world) :
  is_unset (environ !! "WEB3_PROVIDER_URI") = true ->
  connect_to_node environ node_at w
  = (Exc (ValueError "Missing Web3 Provider URI"),
     after w [Log ERROR [Txt "WEB3_PROVIDER_URI not found in environment variables."];
              Log ERROR [Txt "Please create a .env file based on .env.example"]]).
Proof.
  intros Hu. unfold connect_to_node. rewrite Hu.
  unfold logger, emit, raise, mbind, M_bind, bind, after. cbn.
  now rewrite <- app_assoc.
Qed.

Lemma connect_down (w : world) uri :
  environ !! "WEB3_PROVIDER_URI" = Some uri -> uri <> "" -> node_at uri = None ->
  connect_to_node environ node_at w
  = (Exc (ConnectionError "Web3 connection failed"),
     after w [Log ERROR [Txt "Failed to connect to the Ethereum node. Check your RPC URL."]]).
Proof.
  intros Hu Hne Hnode. unfold connect_to_node. rewrite Hu.
  assert (Hset : is_unset (Some uri) = false) by (destruct uri; [congruence|reflexivity]).
  rewrite Hset. change (default "" (Some uri)) with uri. rewrite Hnode. reflexivity.
Qed.

Lemma connect_up (w : world) uri w3 version :
  environ !! "WEB3_PROVIDER_URI" = Some uri -> uri <> "" ->
  node_at uri = Some (w3, version) ->
  connect_to_node environ node_at w
  = (Ret w3,
     after w [Log INFO [Txt "Successfully connected to Ethereum Node. Client version: ";
                        FStr version]]).
Proof.
  intros Hu Hne Hnode. unfold connect_to_node. rewrite Hu.
  assert (Hset : is_unset (Some uri) = false) by (destruct uri; [congruence|reflexivity]).
  rewrite Hset. change (default "" (Some uri)) with uri. rewrite Hnode. reflexivity.
Qed.

(** [main] stage by stage. *)
Lemma onchain_main_stages (w : world) :
  main hw root environ node_at w =
  match connect_to_node environ node_at (after w [onchain_start_line]) with
  | (Exc e, w1) => (Ret tt, after w1 [failure_line e])
  | (Ret w3, w1) =>
    match extract_block_data w3 100 w1 with
    | (Exc e, w2) => (Ret tt, after w2 [failure_line e])
    | (Ret blocks_data, w2) =>
      match save_to_csv hw root blocks_data "ethereum_onchain_data.csv" w2 with
      | (Exc e, w3) => (Ret tt, after w3 [failure_line e])
      | (Ret _, w3) => (Ret tt, after w3 [success_line])
      end
    end
  end.
Proof.
  unfold main, try_except. unfold mbind at 1. unfold M_bind. unfold bind at 1.
  unfold logger at 1. unfold emit at 1.
  unfold mbind at 1. unfold M_bind. unfold bind at 1.
  change {| trace := trace w ++ [Log INFO [Txt "Starting on-chain data extraction pipeline..."]];
            fs := fs w |} with (after w [onchain_start_line]).
  destruct (connect_to_node _ _ _) as [[w3|e] w1]; [|reflexivity].
  unfold mbind at 1. unfold M_bind. unfold bind at 1.
  destruct (extract_block_data w3 100 w1) as [[data|e] w2]; [|reflexivity].
  unfold mbind at 1. unfold M_bind. unfold bind at 1.
  destruct (save_to_csv _ _ _ _ _) as [[[]|e] w3']; reflexivity.
Qed.

(** X18: the on-chain [main] never raises: it returns normally, and
    the last line it logs is either the success line or the failure
    line with the exception that ended the run. *)
Theorem onchain_main_returns (w : world) :
  exists w',
    main hw root environ node_at w = (Ret tt, w')
    /\ (last (trace w') = Some success_line
        \/ exists e, last (trace w') = Some (failure_line e)).
Proof.
  rewrite onchain_main_stages.
  destruct (connect_to_node _ _ _) as [[w3|e] w1];
    [|eexists; split; [reflexivity|right; exists e; cbn; apply last_snoc]].
  destruct (extract_block_data w3 100 w1) as [[data|e] w2];
    [|eexists; split; [reflexivity|right; exists e; cbn; apply last_snoc]].
  destruct (save_to_csv _ _ _ _ _) as [[[]|e] w3'];
    [|eexists; split; [reflexivity|right; exists e; cbn; apply last_snoc]].
  eexists. split; [reflexivity|]. left. cbn. apply last_snoc.
Qed.

(** X19: without a usable node nothing is asked and nothing written.
    When [WEB3_PROVIDER_URI] is unset or empty the run ends with the
    failure line for [ValueError]; when it is set but the node is not
    connected, with the failure line for [ConnectionError].  In both
    cases [main] returns normally, no block was asked for and the file
    system is as it was. *)
Theorem onchain_main_without_node (w : world) :
  let uri := environ !! "WEB3_PROVIDER_URI" in
  is_unset uri = true \/ node_at (default "" uri) = None ->
  exists w',
    main hw root environ node_at w = (Ret tt, w')
    /\ last (trace w')
       = Some (failure_line (if is_unset uri
                             then ValueError "Missing Web3 Provider URI"
                             else ConnectionError "Web3 connection failed"))
    /\ attempted (trace w') = attempted (trace w)
    /\ fs w' = fs w.
Proof.
  intros uri Hno. rewrite onchain_main_stages. subst uri.
  destruct (is_unset (environ !! "WEB3_PROVIDER_URI")) eqn:Hu.
  - rewrite connect_unset by exact Hu. eexists. split; [reflexivity|].
    cbn [after trace fs]. split; [apply last_snoc|]. split; [|reflexivity].
    rewrite !attempted_app. cbn. now rewrite !app_nil_r.
  - destruct Hno as [Hno|Hno]; [discriminate|].
    destruct (environ !! "WEB3_PROVIDER_URI") as [u|] eqn:He; [|discriminate Hu].
    cbn [default] in Hno.
    assert (Hne : u <> "") by (intros ->; discriminate Hu).
    rewrite (connect_down _ u He Hne Hno). eexists. split; [reflexivity|].
    cbn [after trace fs]. split; [apply last_snoc|]. split; [|reflexivity].
    rewrite !attempted_app. cbn. now rewrite !app_nil_r.
Qed.

Lemma omap_visit_none (w3 : Web3) nums :
  (forall n, In n nums -> delivered w3 n = false) -> omap (visit w3) nums = [].
Proof.
  induction nums as [|n rest IH]; intros Hall; [reflexivity|].
  cbn [omap list_omap]. fold (omap (visit w3) rest).
  pose proof (Hall n ltac:(now left)) as Hn. unfold delivered in Hn.
  destruct (get_block w3 n) eqn:Hb; [discriminate|].
  rewrite (visit_failed w3 n Hb). apply IH. intros m Hm. apply Hall. now right.
Qed.

Lemma omap_visit_some (w3 : Web3) nums n :
  In n nums -> delivered w3 n = true -> omap (visit w3) nums <> [].
Proof.
  intros Hin Hd. unfold delivered in Hd.
  destruct (get_block w3 n) as [b|] eqn:Hb; [|discriminate].
  destruct (visit_delivered w3 n b Hb) as (r & Hv & _).
  assert (Hr : In r (omap (visit w3) nums)) by (apply in_omap_visit; eauto).
  intros E. rewrite E in Hr. destruct Hr.
Qed.

(** X20: with a connected node that delivers at least one block of the
    window and a cooperating disk, [main] asks for the 100 most recent
    blocks (fewer on a short chain), ends with the success line, and
    the file [<root>/temp_data/ethereum_onchain_data.csv] holds one
    line per delivered block, in the order asked; every other file is
    as it was. *)
Theorem onchain_main_saves_blocks (w : world) uri w3 version :
  let asked := window (block_number w3) 100 in
  let output_dir := path_join root "temp_data" in
  let output_path := path_join output_dir "ethereum_onchain_data.csv" in
  environ !! "WEB3_PROVIDER_URI" = Some uri -> uri <> "" ->
  node_at uri = Some (w3, version) ->
  (exists n, In n asked /\ delivered w3 n = true) ->
  can_mkdir hw output_dir = true -> can_write hw output_path = true ->
  exists w',
    main hw root environ node_at w = (Ret tt, w')
    /\ last (trace w') = Some success_line
    /\ attempted (trace w') = attempted (trace w) ++ asked
    /\ files (fs w') !! output_path
       = Some {| header := ["block_number"; "timestamp"; "transaction_count";
                            "base_fee_per_gas_gwei"];
                 lines := List.map record_cells (omap (visit w3) asked) |}
    /\ length (omap (visit w3) asked) = length (List.filter (delivered w3) asked)
    /\ forall p, p <> output_path -> files (fs w') !! p = files (fs w) !! p.
Proof.
  intros asked output_dir output_path Hu Hne Hnode (n & Hn & Hd) Hdir Hfile.
  rewrite onchain_main_stages, (connect_up _ uri w3 version Hu Hne Hnode).
  match goal with
  | |- context [extract_block_data w3 100 ?w1] =>
      destruct (extract_run w3 100 w1) as (evs & E & A)
  end.
  rewrite E. fold asked in A |- *.
  rewrite (WriterMore.onchain_save_run hw root)
    by (try assumption; now apply (omap_visit_some w3 asked n)).
  fold output_dir output_path.
  eexists. split; [reflexivity|]. cbn [after trace fs files].
  split; [apply last_snoc|]. split; [|split; [|split]].
  - rewrite !attempted_app, A. cbn. now rewrite !app_nil_r.
  - apply lookup_insert_eq.
  - apply length_omap_delivered.
  - intros p Hp. now apply lookup_insert_ne.
Qed.

(** X21: with a connected node that delivers no block of the window,
    [main] still ends with the success line: every block of the window
    was asked for, the writer only warns that there is no data, and no
    file is created or changed. *)
Theorem onchain_main_nothing_delivered (w : world) uri w3 version :
  environ !! "WEB3_PROVIDER_URI" = Some uri -> uri <> "" ->
  node_at uri = Some (w3, version) ->
  (forall n, In n (window (block_number w3) 100) -> delivered w3 n = false) ->
  exists w',
    main hw root environ node_at w = (Ret tt, w')
    /\ last (trace w') = Some success_line
    /\ In (Log WARNING [Txt "No data to save."]) (trace w')
    /\ attempted (trace w') = attempted (trace w) ++ window (block_number w3) 100
    /\ fs w' = fs w.
Proof.
  intros Hu Hne Hnode Hnone.
  rewrite onchain_main_stages, (connect_up _ uri w3 version Hu Hne Hnode).
  match goal with
  | |- context [extract_block_data w3 100 ?w1] =>
      destruct (extract_run w3 100 w1) as (evs & E & A)
  end.
  rewrite E, (omap_visit_none w3 _ Hnone), WriterFacts.onchain_save_empty.
  eexists. split; [reflexivity|]. cbn [after trace fs].
  split; [apply last_snoc|]. split; [|split; [|reflexivity]].
  - apply in_or_app. left. apply in_or_app. right. now left.
  - rewrite !attempted_app, A. cbn. now rewrite !app_nil_r.
Qed.

End Main.

Lemma onchain_main_without_node_witness :
  is_unset (blank_uri !! "WEB3_PROVIDER_URI") = true
  /\ exists w',
      main (H := exact_float) any_disk "/repo" blank_uri (fun _ => None) onchain_start
        = (Ret tt, w')
      /\ last (trace w') = Some (failure_line (ValueError "Missing Web3 Provider URI"))
      /\ fs w' = empty_fs.
Proof.
  split; [reflexivity|].
  destruct (@onchain_main_without_node exact_float any_disk "/repo" blank_uri
              (fun _ => None) onchain_start) as (w' & Hrun & Hlast & _ & Hfs).
  - left. reflexivity.
  - exists w'. split; [exact Hrun|]. split; [exact Hlast|exact Hfs].
Defined.

Lemma onchain_main_saves_blocks_witness :
  exists w',
    main (H := exact_float) any_disk "/repo" with_uri (fun _ => Some (flaky_node, "Geth"))
         onchain_start = (Ret tt, w')
    /\ last (trace w') = Some success_line
    /\ is_Some (files (fs w') !! "/repo/temp_data/ethereum_onchain_data.csv").
Proof.
  destruct (@onchain_main_saves_blocks exact_float any_disk "/repo" with_uri
              (fun _ => Some (flaky_node, "Geth")) onchain_start
              "http://node:8545" flaky_node "Geth")
    as (w' & Hrun & Hlast & _ & Hfile & _).
  - reflexivity.
  - discriminate.
  - reflexivity.
  - exists 44. split; [now left|reflexivity].
  - reflexivity.
  - reflexivity.
  - exists w'. split; [exact Hrun|]. split; [exact Hlast|]. eexists. exact Hfile.
Defined.

Lemma onchain_main_nothing_delivered_witness :
  exists w',
    main (H := exact_float) any_disk "/repo" with_uri (fun _ => Some (silent_node, "Geth"))
         onchain_start = (Ret tt, w')
    /\ last (trace w') = Some success_line
    /\ fs w' = empty_fs.
Proof.
  destruct (@onchain_main_nothing_delivered exact_float any_disk "/repo" with_uri
              (fun _ => Some (silent_node, "Geth")) onchain_start
              "http://node:8545" silent_node "Geth")
    as (w' & Hrun & Hlast & _ & _ & Hfs).
  - reflexivity.
  - discriminate.
  - reflexivity.
  - intros n _. reflexivity.
  - exists w'. split; [exact Hrun|]. split; [exact Hlast|exact Hfs].
Defined.

End OnChainMain.
